(** * AirplaneTracking: the entity engine and the geographic transform

    A shallow embedding of [src/AirplaneTracking/main.py]: the coordinate
    transformer, the [Airplane] state machine (target update, interpolation,
    bounded trail), the rate-limited feed reader, the parser of state vectors,
    the reconcile step [update_airplanes] and the update part of the main
    loop.  Rendering, fonts, sprites and event plumbing are left out.

    Python floats are IEEE-754 binary64 numbers: they are embedded as Rocq's
    primitive floats, so every arithmetic expression of the source is
    evaluated with the rounding the interpreter performs.  Python exceptions
    are embedded as the [Raise] branch of a result type. *)

From Stdlib Require Import ZArith List Bool Lia Floats String Ascii.
Import ListNotations.

#[local] Set Warnings "-inexact-float,-register-all".
#[local] Open Scope Z_scope.

(** ** Exceptions and results *)

Inductive exn : Type :=
| ZeroDivisionError
| OverflowError
| ValueError
| TypeError
| IndexError
| KeyError
| AttributeError
| RequestException
| JSONDecodeError.

Inductive result (A : Type) : Type :=
| Ok (a : A)
| Raise (e : exn).

Arguments Ok {A} a.
Arguments Raise {A} e.

Definition bind {A B : Type} (r : result A) (k : A -> result B) : result B :=
  match r with
  | Ok a => k a
  | Raise e => Raise e
  end.

Notation "x <- r ;; k" := (bind r (fun x => k))
  (at level 61, r at next level, right associativity).

Definition is_ok {A : Type} (r : result A) : bool :=
  match r with Ok _ => true | Raise _ => false end.

(** ** Python numbers *)

Module Py.

(** An integer as an exact binary number (mantissa and exponent 0). *)
Definition Z2SF (z : Z) : spec_float :=
  match z with
  | Z0 => S754_zero false
  | Zpos p => S754_finite false p 0
  | Zneg p => S754_finite true p 0
  end.

(** [float(z)] for a Python int: the nearest binary64 number; an int beyond
    the float range raises [OverflowError]. *)
Definition float_of_int (z : Z) : result float :=
  let f := SF2Prim (binary_normalize prec emax z 0 false) in
  if is_infinity f then Raise OverflowError else Ok f.

(** [a / b] on two floats: division by a zero of either sign raises. *)
Definition div (a b : float) : result float :=
  if is_zero b then Raise ZeroDivisionError else Ok (a / b)%float.

(** [a / b] on two ints (true division): the correctly rounded quotient. *)
Definition truediv_int (a b : Z) : result float :=
  if b =? 0 then Raise ZeroDivisionError
  else
    let q := SF2Prim (SFdiv prec emax (Z2SF a) (Z2SF b)) in
    if is_infinity q then Raise OverflowError else Ok q.

(** [int(x)]: truncation toward zero; NaN and the infinities raise. *)
Definition int (x : float) : result Z :=
  match Prim2SF x with
  | S754_nan => Raise ValueError
  | S754_infinity _ => Raise OverflowError
  | S754_zero _ => Ok 0
  | S754_finite s m e =>
      Ok (cond_Zopp s (if 0 <=? e then Zpos m * 2 ^ e
                       else Zpos m / 2 ^ (- e)))
  end.

End Py.

(** ** Constants and configuration (main.py, lines 27-52) *)

Definition SCREEN_WIDTH : Z := 1200.
Definition SCREEN_HEIGHT : Z := 800.

Definition ASIA_MIN_LAT : float := (-10.0)%float.
Definition ASIA_MAX_LAT : float := 55.0%float.
Definition ASIA_MIN_LON : float := 60.0%float.
Definition ASIA_MAX_LON : float := 150.0%float.

Definition COLOR_AIRPLANE_DEFAULT : Z * Z * Z := (255, 200, 0).

Definition API_UPDATE_INTERVAL : float := 10%float.
Definition INTERPOLATION_STEPS : Z := 30.

(** ** CoordinateTransformer (main.py, lines 58-118) *)

Record CoordinateTransformer : Type := mkTransformer {
  min_lat : float;
  max_lat : float;
  min_lon : float;
  max_lon : float;
  screen_width : Z;
  screen_height : Z;
  zoom : float;
  pan_x : float;
  pan_y : float
}.

(** [__init__] stores its nine arguments; it has no failing path. *)
Definition CoordinateTransformer_init
    (min_lat max_lat min_lon max_lon : float)
    (screen_width screen_height : Z)
    (zoom pan_x pan_y : float) : result CoordinateTransformer :=
  Ok (mkTransformer min_lat max_lat min_lon max_lon
        screen_width screen_height zoom pan_x pan_y).

(** normalize, scale to the viewport, zoom about the centre, pan, truncate. *)
Definition geo_to_screen (self : CoordinateTransformer) (lat lon : float)
  : result (Z * Z) :=
  norm_x <- Py.div (lon - min_lon self) (max_lon self - min_lon self) ;;
  norm_y <- Py.div (max_lat self - lat) (max_lat self - min_lat self) ;;
  center_x <- Py.truediv_int (screen_width self) 2 ;;
  center_y <- Py.truediv_int (screen_height self) 2 ;;
  w <- Py.float_of_int (screen_width self) ;;
  let x := (norm_x * w)%float in
  h <- Py.float_of_int (screen_height self) ;;
  let y := (norm_y * h)%float in
  let x := (center_x + (x - center_x) * zoom self)%float in
  let y := (center_y + (y - center_y) * zoom self)%float in
  let x := (x + pan_x self)%float in
  let y := (y + pan_y self)%float in
  ix <- Py.int x ;;
  iy <- Py.int y ;;
  Ok (ix, iy).

Definition is_in_view (self : CoordinateTransformer) (lat lon : float) : bool :=
  (min_lat self <=? lat)%float && (lat <=? max_lat self)%float &&
  (min_lon self <=? lon)%float && (lon <=? max_lon self)%float.

(** [linear_interpolation] (main.py, lines 142-156). *)
Definition linear_interpolation (start finish t : float) : float :=
  (start + (finish - start) * t)%float.

(** ** Python values

    The values a decoded JSON document is made of.  A string is a sequence of
    code points below 256; a dict is the list of its entries. *)

Inductive pyval : Type :=
| PNone
| PBool (b : bool)
| PInt (z : Z)
| PFloat (f : float)
| PStr (s : string)
| PList (l : list pyval)
| PDict (d : list (string * pyval)).

(** Truth value of an object, as [if v] and [v if v else w] test it. *)
Definition truthy (v : pyval) : bool :=
  match v with
  | PNone => false
  | PBool b => b
  | PInt z => negb (z =? 0)
  | PFloat f => negb (is_zero f)
  | PStr s => negb (String.length s =? 0)%nat
  | PList l => negb (List.length l =? 0)%nat
  | PDict d => negb (List.length d =? 0)%nat
  end.

Definition is_None (v : pyval) : bool :=
  match v with PNone => true | _ => false end.

(** [v if v is not None else d]. *)
Definition if_not_None (v d : pyval) : pyval :=
  if is_None v then d else v.

Definition is_number (v : pyval) : bool :=
  match v with PBool _ | PInt _ | PFloat _ => true | _ => false end.

(** [str.isspace] on one code point below 256. *)
Definition is_space (c : ascii) : bool :=
  let n := nat_of_ascii c in
  ((9 <=? n) && (n <=? 13) || (28 <=? n) && (n <=? 32)
   || (n =? 133) || (n =? 160))%nat.

Fixpoint lstrip (s : string) : string :=
  match s with
  | EmptyString => EmptyString
  | String c s' => if is_space c then lstrip s' else s
  end.

Fixpoint rstrip (s : string) : string :=
  match s with
  | EmptyString => EmptyString
  | String c s' =>
      match rstrip s' with
      | EmptyString => if is_space c then EmptyString else String c EmptyString
      | r => String c r
      end
  end.

(** [s.strip()]. *)
Definition strip (s : string) : string := rstrip (lstrip s).

(** ** Airplane (main.py, lines 173-259) *)

Record Airplane : Type := mkAirplane {
  icao24 : pyval;
  callsign : string;
  target_lat : float;
  target_lon : float;
  display_lat : float;
  display_lon : float;
  heading : pyval;
  altitude : pyval;
  velocity : pyval;
  interp_step : Z;
  prev_lat : float;
  prev_lon : float;
  trail : list (float * float);
  max_trail_length : Z;
  color : Z * Z * Z
}.

(** [sum(ord(c) for c in s)]. *)
Fixpoint sum_ord (s : string) : Z :=
  match s with
  | EmptyString => 0
  | String c s' => Z.of_nat (nat_of_ascii c) + sum_ord s'
  end.

(** The colour [assign_color_by_callsign] derives from the airline code. *)
Definition color_of_callsign (cs : string) : Z * Z * Z :=
  let airline_code :=
    if (3 <=? String.length cs)%nat then substring 0 3 cs else "UNK"%string in
  let hash_val := sum_ord airline_code in
  ((hash_val * 67) mod 200 + 55,
   (hash_val * 131) mod 200 + 55,
   (hash_val * 197) mod 200 + 55).

Definition assign_color_by_callsign (self : Airplane) : Airplane :=
  mkAirplane (icao24 self) (callsign self) (target_lat self) (target_lon self)
    (display_lat self) (display_lon self) (heading self) (altitude self)
    (velocity self) (interp_step self) (prev_lat self) (prev_lon self)
    (trail self) (max_trail_length self) (color_of_callsign (callsign self)).

(** [Airplane.__init__].  [callsign.strip()] is reached for every true
    callsign, and only a [str] has that method. *)
Definition Airplane_init (icao24 callsign : pyval) (lat lon : float)
    (heading altitude velocity : pyval) : result Airplane :=
  cs <- (if truthy callsign
         then match callsign with
              | PStr s => Ok (strip s)
              | _ => Raise AttributeError
              end
         else Ok "Unknown"%string) ;;
  Ok (assign_color_by_callsign
        (mkAirplane icao24 cs lat lon lat lon
           (if_not_None heading (PInt 0))
           (if_not_None altitude (PInt 0))
           (if_not_None velocity (PInt 0))
           0 lat lon [(lat, lon)] 20 COLOR_AIRPLANE_DEFAULT)).

(** [update_target]: [trail.append] then [trail.pop(0)] when the bound is
    exceeded. *)
Definition update_target (self : Airplane) (lat lon : float)
    (heading' altitude' velocity' : pyval) : Airplane :=
  let appended := trail self ++ [(lat, lon)] in
  mkAirplane (icao24 self) (callsign self)
    lat lon
    (display_lat self) (display_lon self)
    (if_not_None heading' (heading self))
    (if_not_None altitude' (altitude self))
    (if_not_None velocity' (velocity self))
    0
    (display_lat self) (display_lon self)
    (if max_trail_length self <? Z.of_nat (List.length appended)
     then List.tl appended else appended)
    (max_trail_length self) (color self).

(** [interpolate]: one animation step. *)
Definition interpolate (self : Airplane) : result Airplane :=
  if interp_step self <? INTERPOLATION_STEPS then
    t <- Py.truediv_int (interp_step self) INTERPOLATION_STEPS ;;
    Ok (mkAirplane (icao24 self) (callsign self)
          (target_lat self) (target_lon self)
          (linear_interpolation (prev_lat self) (target_lat self) t)
          (linear_interpolation (prev_lon self) (target_lon self) t)
          (heading self) (altitude self) (velocity self)
          (interp_step self + 1)
          (prev_lat self) (prev_lon self)
          (trail self) (max_trail_length self) (color self))
  else
    Ok (mkAirplane (icao24 self) (callsign self)
          (target_lat self) (target_lon self)
          (target_lat self) (target_lon self)
          (heading self) (altitude self) (velocity self)
          (interp_step self)
          (prev_lat self) (prev_lon self)
          (trail self) (max_trail_length self) (color self)).

(** [n] successive calls of [interpolate]. *)
Fixpoint interpolate_n (n : nat) (self : Airplane) : result Airplane :=
  match n with
  | O => Ok self
  | S n' => a <- interpolate self ;; interpolate_n n' a
  end.

(** ** Subscripts and comparisons of Python values *)

(** [v[i]] for a constant index [i >= 0].  The keys of a decoded JSON object
    are strings, so an integer subscript of a dict is a [KeyError]. *)
Definition getitem (v : pyval) (i : nat) : result pyval :=
  match v with
  | PList l =>
      match nth_error l i with
      | Some x => Ok x
      | None => Raise IndexError
      end
  | PStr s =>
      match String.get i s with
      | Some c => Ok (PStr (String c EmptyString))
      | None => Raise IndexError
      end
  | PDict _ => Raise KeyError
  | _ => Raise TypeError
  end.

(** Exact comparison of an int with a float, as Python performs it; [None]
    when the float is NaN. *)
Definition compare_int_float (z : Z) (f : float) : option comparison :=
  match Prim2SF f with
  | S754_nan => None
  | S754_infinity s => Some (if s then Gt else Lt)
  | S754_zero _ => Some (z ?= 0)
  | S754_finite s m e =>
      let v := cond_Zopp s (Zpos m) in
      Some (if 0 <=? e then z ?= v * 2 ^ e else z * 2 ^ (- e) ?= v)
  end.

(** [f <= v] with a float on the left. *)
Definition float_le (f : float) (v : pyval) : result bool :=
  let int_case z :=
    match compare_int_float z f with
    | Some Eq | Some Gt => true
    | _ => false
    end in
  match v with
  | PFloat g => Ok (f <=? g)%float
  | PInt z => Ok (int_case z)
  | PBool b => Ok (int_case (Z.b2z b))
  | _ => Raise TypeError
  end.

(** [v <= f] with a float on the right. *)
Definition le_float (v : pyval) (f : float) : result bool :=
  let int_case z :=
    match compare_int_float z f with
    | Some Eq | Some Lt => true
    | _ => false
    end in
  match v with
  | PFloat g => Ok (g <=? f)%float
  | PInt z => Ok (int_case z)
  | PBool b => Ok (int_case (Z.b2z b))
  | _ => Raise TypeError
  end.

(** A coordinate held by an [Airplane].  The parser lets a JSON integer (or
    boolean) through as a coordinate; Python converts it to the float of the
    same value in every operation the tracker performs on it, and inside the
    region that conversion is exact, so the embedding keeps the float. *)
Definition coord (v : pyval) : float :=
  match v with
  | PFloat f => f
  | PInt z => SF2Prim (binary_normalize prec emax z 0 false)
  | PBool b => if b then 1%float else 0%float
  | _ => nan
  end.

(** ** AviationAPIFetcher (main.py, lines 266-354) *)

Record AviationAPIFetcher : Type := mkFetcher {
  last_fetch_time : float;
  cache_data : pyval
}.

Definition AviationAPIFetcher_init : AviationAPIFetcher :=
  mkFetcher 0%float (PList []).

(** What the network does when [requests.get] is called: it raises, or it
    returns a response with a status code whose [json()] raises ([None]) or
    decodes to a value. *)
Inductive http_outcome : Type :=
| NoResponse
| Response (status_code : Z) (json : option pyval).

(** [data.get('states', [])] on a decoded object. *)
Fixpoint dict_get_str (d : list (string * pyval)) (k : string) (default : pyval)
  : pyval :=
  match d with
  | [] => default
  | (k', v) :: d' => if String.eqb k k' then v else dict_get_str d' k default
  end.

(** [len(v)]. *)
Definition py_len (v : pyval) : result Z :=
  match v with
  | PStr s => Ok (Z.of_nat (String.length s))
  | PList l => Ok (Z.of_nat (List.length l))
  | PDict d => Ok (Z.of_nat (List.length d))
  | _ => Raise TypeError
  end.

(** The [try] block of [fetch_airplanes] (lines 297-310): the fetcher as the
    block leaves it, and the value it returns or the exception it raises.
    On status 200 [cache_data] and [last_fetch_time] are assigned before
    [print(f"Fetched {len(self.cache_data)} ...")] runs. *)
Definition fetch_try (self : AviationAPIFetcher) (current_time : float)
    (net : http_outcome) : AviationAPIFetcher * result pyval :=
  match net with
  | NoResponse => (self, Raise RequestException)
  | Response status_code body =>
      if status_code =? 200 then
        match body with
        | None => (self, Raise JSONDecodeError)
        | Some (PDict data) =>
            let self' :=
              mkFetcher current_time (dict_get_str data "states" (PList [])) in
            (self', _ <- py_len (cache_data self') ;; Ok (cache_data self'))
        | Some _ => (self, Raise AttributeError)
        end
      else (self, Ok (cache_data self))
  end.

(** [fetch_airplanes]: the fetcher after the call, the returned snapshot, and
    whether [requests.get] was called.  The handler of [except Exception]
    returns the [cache_data] attribute as the [try] block left it. *)
Definition fetch_airplanes (self : AviationAPIFetcher) (current_time : float)
    (net : http_outcome) : AviationAPIFetcher * pyval * bool :=
  if (current_time - last_fetch_time self <? API_UPDATE_INTERVAL)%float
  then (self, cache_data self, false)
  else
    let (self', r) := fetch_try self current_time net in
    match r with
    | Ok snapshot => (self', snapshot, true)
    | Raise _ => (self', cache_data self', true)
    end.

(** The dictionary [parse_airplane_data] builds. *)
Record airplane_data : Type := mkData {
  ad_icao24 : pyval;
  ad_callsign : pyval;
  ad_country : pyval;
  ad_longitude : pyval;
  ad_latitude : pyval;
  ad_altitude : pyval;
  ad_velocity : pyval;
  ad_heading : pyval
}.

(** The body of the [try] block of [parse_airplane_data]. *)
Definition parse_body (state_vector : pyval) : result (option airplane_data) :=
  v5 <- getitem state_vector 5 ;;
  if is_None v5 then Ok None else
  v6 <- getitem state_vector 6 ;;
  if is_None v6 then Ok None else
  lon <- getitem state_vector 5 ;;
  lat <- getitem state_vector 6 ;;
  in_region <-
    (c1 <- float_le ASIA_MIN_LAT lat ;;
     if negb c1 then Ok false else
     c2 <- le_float lat ASIA_MAX_LAT ;;
     if negb c2 then Ok false else
     c3 <- float_le ASIA_MIN_LON lon ;;
     if negb c3 then Ok false else
     le_float lon ASIA_MAX_LON) ;;
  if negb in_region then Ok None else
  v0 <- getitem state_vector 0 ;;
  v1 <- getitem state_vector 1 ;;
  cs <- (if truthy v1 then getitem state_vector 1 else Ok (PStr "N/A")) ;;
  v2 <- getitem state_vector 2 ;;
  v7 <- getitem state_vector 7 ;;
  v9 <- getitem state_vector 9 ;;
  v10 <- getitem state_vector 10 ;;
  Ok (Some (mkData v0 cs v2 lon lat v7 v9 v10)).

(** [parse_airplane_data]: [except Exception] turns every failure into
    [None]. *)
Definition parse_airplane_data (state_vector : pyval) : option airplane_data :=
  match parse_body state_vector with
  | Ok r => r
  | Raise _ => None
  end.

(** ** The dictionary of tracked airplanes

    [self.airplanes] is an insertion-ordered dict.  Python identifies two keys
    when they are equal ([1], [1.0] and [True] are one key), so a key is kept
    by its canonical form: a number with an integral value as that integer,
    any other float by its binary representation.  NaN is the one shared
    constant of the JSON decoder, hence a key equal to itself.  Lists and
    dicts are unhashable. *)

Inductive key : Type :=
| KNone
| KInt (z : Z)
| KFloat (f : spec_float)
| KStr (s : string).

Definition float_key (f : float) : key :=
  match Prim2SF f with
  | S754_zero _ => KInt 0
  | S754_finite s m e =>
      if 0 <=? e then KInt (cond_Zopp s (Zpos m * 2 ^ e))
      else if Zpos m mod 2 ^ (- e) =? 0
           then KInt (cond_Zopp s (Zpos m / 2 ^ (- e)))
           else KFloat (S754_finite s m e)
  | sf => KFloat sf
  end.

(** The key an object is looked up under; [hash] raises on a list or dict. *)
Definition dict_key (v : pyval) : result key :=
  match v with
  | PNone => Ok KNone
  | PBool b => Ok (KInt (Z.b2z b))
  | PInt z => Ok (KInt z)
  | PFloat f => Ok (float_key f)
  | PStr s => Ok (KStr s)
  | PList _ | PDict _ => Raise TypeError
  end.

Definition spec_float_eq_dec (x y : spec_float) : {x = y} + {x <> y}.
Proof.
  decide equality; try apply Bool.bool_dec; try apply Z.eq_dec;
    apply Pos.eq_dec.
Defined.

Definition key_eq_dec (x y : key) : {x = y} + {x <> y}.
Proof.
  decide equality; try apply Z.eq_dec; try apply spec_float_eq_dec;
    apply string_dec.
Defined.

Definition key_eqb (x y : key) : bool :=
  if key_eq_dec x y then true else false.

Definition dict : Type := list (key * Airplane).

(** [d[k]] / [k in d]. *)
Fixpoint dict_get (k : key) (d : dict) : option Airplane :=
  match d with
  | [] => None
  | (k', a) :: d' => if key_eqb k k' then Some a else dict_get k d'
  end.

(** The entry under [k] replaced in place (the object is mutated). *)
Fixpoint dict_set (k : key) (a : Airplane) (d : dict) : dict :=
  match d with
  | [] => []
  | (k', a') :: d' =>
      if key_eqb k k' then (k', a) :: d' else (k', a') :: dict_set k a d'
  end.

(** [del d[k]]. *)
Fixpoint dict_del (k : key) (d : dict) : dict :=
  match d with
  | [] => []
  | (k', a') :: d' =>
      if key_eqb k k' then d' else (k', a') :: dict_del k d'
  end.

Definition key_in (k : key) (l : list key) : bool :=
  existsb (key_eqb k) l.

(** ** AirplaneTrackingApp (main.py, lines 361-490 and 677-737) *)

(** The attributes the update part of the application reads and writes; the
    window, the fonts, the sprite, the zoom and the pointer belong to the
    presentation. *)
Record AirplaneTrackingApp : Type := mkApp {
  api_fetcher : AviationAPIFetcher;
  airplanes : dict;
  last_api_update : float
}.

Definition AirplaneTrackingApp_init : AirplaneTrackingApp :=
  mkApp AviationAPIFetcher_init [] 0%float.

(** [for state_vector in raw_data]: the items the loop visits.  A string
    yields its characters, a dict its keys; other objects are not iterable. *)
Definition iterate (raw_data : pyval) : result (list pyval) :=
  match raw_data with
  | PList l => Ok l
  | PStr s =>
      Ok (map (fun c => PStr (String c EmptyString)) (list_ascii_of_string s))
  | PDict d => Ok (map (fun kv => PStr (fst kv)) d)
  | _ => Raise TypeError
  end.

(** One iteration of the loop of [update_airplanes] on the pair
    ([self.airplanes], [current_icao_list]).  The list receives the object
    before the dict hashes it; an exception ends the run, so the embedding
    records the key once it exists. *)
Definition reconcile_record (st : dict * list key) (state_vector : pyval)
  : result (dict * list key) :=
  let (planes, current_icao_list) := st in
  match parse_airplane_data state_vector with
  | None => Ok st
  | Some data =>
      icao <- dict_key (ad_icao24 data) ;;
      match dict_get icao planes with
      | Some a =>
          Ok (dict_set icao
                (update_target a (coord (ad_latitude data))
                   (coord (ad_longitude data)) (ad_heading data)
                   (ad_altitude data) (ad_velocity data)) planes,
              current_icao_list ++ [icao])
      | None =>
          a <- Airplane_init (ad_icao24 data) (ad_callsign data)
                 (coord (ad_latitude data)) (coord (ad_longitude data))
                 (ad_heading data) (ad_altitude data) (ad_velocity data) ;;
          Ok (planes ++ [(icao, a)], current_icao_list ++ [icao])
      end
  end.

Fixpoint reconcile_records (records : list pyval) (st : dict * list key)
  : result (dict * list key) :=
  match records with
  | [] => Ok st
  | r :: rest => st' <- reconcile_record st r ;; reconcile_records rest st'
  end.

(** The grace test [time.time() - self.last_api_update > 60]. *)
Definition grace_exceeded (now last_api_update : float) : bool :=
  (60 <? now - last_api_update)%float.

(** The keys of [icao_to_remove].  The comprehension calls [time.time()]
    once for every key that is not in the list: [now icao] is the reading it
    takes for the key [icao] (the keys of a dict are distinct, so one pass
    tests a key once). *)
Definition icao_to_remove (planes : dict) (current_icao_list : list key)
    (now : key -> float) (last_api_update : float) : list key :=
  filter (fun icao => negb (key_in icao current_icao_list)
                      && grace_exceeded (now icao) last_api_update)
         (map fst planes).

(** The part of [update_airplanes] after the fetch: merge the snapshot, then
    remove the stale entries. *)
Definition reconcile (planes : dict) (raw_data : pyval)
    (now : key -> float) (last_api_update : float) : result dict :=
  records <- iterate raw_data ;;
  st <- reconcile_records records (planes, []) ;;
  let (planes', current_icao_list) := st in
  Ok (fold_left (fun d icao => dict_del icao d)
        (icao_to_remove planes' current_icao_list now last_api_update)
        planes').

(** The clock readings and the network outcome one call of
    [update_airplanes] meets: the reading of [fetch_airplanes], the answer of
    the network, and the reading the eviction pass takes for each key. *)
Record world : Type := mkClock {
  fetch_time : float;
  net : http_outcome;
  evict_time : key -> float
}.

(** The world whose eviction pass reads the same time for every key. *)
Definition mkWorld (t_fetch : float) (outcome : http_outcome)
    (t_evict : float) : world :=
  mkClock t_fetch outcome (fun _ => t_evict).

(** [update_airplanes]: whether the feed was requested, and the application
    after the call. *)
Definition update_airplanes (self : AirplaneTrackingApp) (w : world)
  : bool * result AirplaneTrackingApp :=
  let '(fetcher, raw_data, requested) :=
    fetch_airplanes (api_fetcher self) (fetch_time w) (net w) in
  (requested,
   planes <- reconcile (airplanes self) raw_data (evict_time w)
               (last_api_update self) ;;
   Ok (mkApp fetcher planes (last_api_update self))).

(** [for airplane in self.airplanes.values(): airplane.interpolate()]. *)
Fixpoint interpolate_all (planes : dict) : result dict :=
  match planes with
  | [] => Ok []
  | (k, a) :: rest =>
      a' <- interpolate a ;;
      rest' <- interpolate_all rest ;;
      Ok ((k, a') :: rest')
  end.

(** The update part of one iteration of the loop of [run] (lines 703-712):
    [run_time] is the clock reading [current_time]. *)
Definition tick (self : AirplaneTrackingApp) (run_time : float) (w : world)
  : bool * result AirplaneTrackingApp :=
  match interpolate_all (airplanes self) with
  | Raise e => (false, Raise e)
  | Ok planes =>
      let self1 := mkApp (api_fetcher self) planes (last_api_update self) in
      if (API_UPDATE_INTERVAL <=? run_time - last_api_update self)%float
      then
        let (requested, r) := update_airplanes self1 w in
        (requested,
         self2 <- r ;;
         Ok (mkApp (api_fetcher self2) (airplanes self2) run_time))
      else (false, Ok self1)
  end.

(** ** Predicates on airplanes *)

(** The display position and the target position of an airplane. *)
Definition display (a : Airplane) : float * float :=
  (display_lat a, display_lon a).

Definition target (a : Airplane) : float * float :=
  (target_lat a, target_lon a).

(** What [interpolate] never touches. *)
Definition same_course (a a' : Airplane) : Prop :=
  (target_lat a', target_lon a') = (target_lat a, target_lon a)
  /\ (prev_lat a', prev_lon a') = (prev_lat a, prev_lon a)
  /\ trail a' = trail a
  /\ max_trail_length a' = max_trail_length a.

(** The display position is the target position. *)
Definition pinned (a : Airplane) : Prop := display a = target a.

(** The display is the last interpolated point, one step short of the
    target. *)
Definition at_last_point (a : Airplane) : Prop :=
  exists t,
    Py.truediv_int (INTERPOLATION_STEPS - 1) INTERPOLATION_STEPS = Ok t
    /\ (display_lat a, display_lon a)
       = (linear_interpolation (prev_lat a) (target_lat a) t,
          linear_interpolation (prev_lon a) (target_lon a) t).

(** The last [n] entries of a list. *)
Definition lastn {A : Type} (n : nat) (l : list A) : list A :=
  skipn (List.length l - n) l.

(** The invariant of an airplane whose positions so far are [hist]. *)
Definition airplane_inv (hist : list (float * float)) (a : Airplane) : Prop :=
  0 <= interp_step a <= INTERPOLATION_STEPS
  /\ max_trail_length a = 20
  /\ trail a = lastn 20 hist
  /\ (interp_step a = INTERPOLATION_STEPS -> pinned a \/ at_last_point a).

(** ** Sequences of calls on one airplane *)

(** A call made on an [Airplane] after its construction. *)
Inductive call : Type :=
| CallUpdateTarget (lat lon : float) (heading altitude velocity : pyval)
| CallInterpolate.

Definition apply_call (self : Airplane) (c : call) : result Airplane :=
  match c with
  | CallUpdateTarget lat lon h alt v => Ok (update_target self lat lon h alt v)
  | CallInterpolate => interpolate self
  end.

Fixpoint apply_calls (self : Airplane) (cs : list call) : result Airplane :=
  match cs with
  | [] => Ok self
  | c :: rest => a <- apply_call self c ;; apply_calls a rest
  end.

(** The positions a sequence of calls hands to [update_target], in order. *)
Fixpoint positions_of (cs : list call) : list (float * float) :=
  match cs with
  | [] => []
  | CallUpdateTarget lat lon _ _ _ :: rest => (lat, lon) :: positions_of rest
  | CallInterpolate :: rest => positions_of rest
  end.

(** ** Snapshots *)

(** The key a state vector is merged under, when the parser accepts it. *)
Definition record_key (state_vector : pyval) : option key :=
  match parse_airplane_data state_vector with
  | Some data =>
      match dict_key (ad_icao24 data) with
      | Ok k => Some k
      | Raise _ => None
      end
  | None => None
  end.

(** The position a state vector carries, when the parser accepts it. *)
Definition record_position (state_vector : pyval) : option (float * float) :=
  match parse_airplane_data state_vector with
  | Some data => Some (coord (ad_latitude data), coord (ad_longitude data))
  | None => None
  end.

(** The keys present in a snapshot. *)
Fixpoint snapshot_keys (records : list pyval) : list key :=
  match records with
  | [] => []
  | r :: rest =>
      match record_key r with
      | Some k => k :: snapshot_keys rest
      | None => snapshot_keys rest
      end
  end.

(** The position of the last record of a snapshot merged under [k]. *)
Fixpoint last_position (records : list pyval) (k : key)
  : option (float * float) :=
  match records with
  | [] => None
  | r :: rest =>
      match last_position rest k with
      | Some p => Some p
      | None =>
          match record_key r with
          | Some k' => if key_eqb k k' then record_position r else None
          | None => None
          end
      end
  end.

(** The snapshot a call of [update_airplanes] merges. *)
Definition fetched (self : AirplaneTrackingApp) (w : world) : pyval :=
  let '(_, raw_data, _) :=
    fetch_airplanes (api_fetcher self) (fetch_time w) (net w) in
  raw_data.

(** The keys of the snapshot a call of [update_airplanes] merges. *)
Definition fetched_keys (self : AirplaneTrackingApp) (w : world) : list key :=
  let '(_, raw_data, _) :=
    fetch_airplanes (api_fetcher self) (fetch_time w) (net w) in
  match iterate raw_data with
  | Ok records => snapshot_keys records
  | Raise _ => []
  end.

(** [k] is a key of the dictionary. *)
Definition tracked (k : key) (d : dict) : Prop := dict_get k d <> None.

(** The key passes the eviction of [update_airplanes]: it is in
    [current_icao_list], or the reading taken for it does not exceed
    [last_api_update] by more than 60 seconds. *)
Definition kept_by_eviction (current_icao_list : list key)
    (now : key -> float) (last_api_update : float) (icao : key) : bool :=
  key_in icao current_icao_list
  || negb (grace_exceeded (now icao) last_api_update).

(** ** The run of the application *)

(** The transformer the application builds (lines 379-382): the Asia region
    on the 1200x800 window, zoom 1, no pan. *)
Definition asia_transformer : result CoordinateTransformer :=
  CoordinateTransformer_init ASIA_MIN_LAT ASIA_MAX_LAT ASIA_MIN_LON
    ASIA_MAX_LON SCREEN_WIDTH SCREEN_HEIGHT 1%float 0%float 0%float.

(** The start of [run] (lines 692-694): the initial fetch, then the clock
    reading stored in [last_api_update]. *)
Definition run_start (self : AirplaneTrackingApp) (w : world)
    (time_after : float) : result AirplaneTrackingApp :=
  self' <- snd (update_airplanes self w) ;;
  Ok (mkApp (api_fetcher self') (airplanes self') time_after).

(** Successive iterations of the loop of [run], each with its clock reading
    and world. *)
Fixpoint run_ticks (self : AirplaneTrackingApp) (ticks : list (float * world))
  : result AirplaneTrackingApp :=
  match ticks with
  | [] => Ok self
  | (run_time, w) :: rest =>
      self' <- snd (tick self run_time w) ;; run_ticks self' rest
  end.

(** The runs in which no eviction pass finds the grace window exceeded:
    every pass reads the clock at most 60 seconds after the stamp
    [last_api_update] the loop holds when the pass starts.  [run] renews the
    stamp after every reconcile (line 712), so the stamp of the next
    iteration is the clock reading of this one whenever the update interval
    had elapsed. *)
Fixpoint regular (last_api_update : float) (ticks : list (float * world))
  : Prop :=
  match ticks with
  | [] => True
  | (run_time, w) :: rest =>
      if (API_UPDATE_INTERVAL <=? run_time - last_api_update)%float
      then (forall k, grace_exceeded (evict_time w k) last_api_update = false)
           /\ regular run_time rest
      else regular last_api_update rest
  end.

(** ** Sample feed data *)

(** A state vector of flight JAL123 over Tokyo. *)
Definition tokyo_vector : pyval :=
  PList [PStr "abc123"; PStr "JAL123  "; PStr "Japan"; PInt 1000; PInt 1000;
         PFloat 139.76; PFloat 35.68; PFloat 10000; PBool false;
         PFloat 250; PFloat 90].

(** The feed answering 200 with a document whose "states" is [states]. *)
Definition feed_response (states : pyval) : http_outcome :=
  Response 200 (Some (PDict [("time"%string, PInt 1000);
                             ("states"%string, states)])).

(** [n] iterations of the loop ten seconds apart, the first at [start], each
    meeting the network outcome [outcome]. *)
Fixpoint every_ten_seconds (start : float) (n : nat) (outcome : http_outcome)
  : list (float * world) :=
  match n with
  | O => []
  | S n' =>
      (start, mkWorld start outcome start)
      :: every_ten_seconds (start + 10)%float n' outcome
  end.

(** A state vector whose callsign is the number 5. *)
Definition numeric_callsign_vector : pyval :=
  PList [PStr "def456"; PInt 5; PStr "Japan"; PInt 1000; PInt 1000;
         PFloat 139.76; PFloat 35.68; PFloat 10000; PBool false;
         PFloat 250; PFloat 90].

(** ** The presentation state of AirplaneTrackingApp (main.py, lines 378-409)

    The attributes the event handler and the hover test read and write. *)

Record AppView : Type := mkView {
  transformer : CoordinateTransformer;
  app_zoom : float;
  app_pan_x : float;
  app_pan_y : float;
  mouse_pos : Z * Z;
  hovered_airplane : option Airplane;
  running : bool
}.

(** The values [__init__] gives them (lines 379-382 and 394-409). *)
Definition AppView_init : AppView :=
  mkView
    (mkTransformer ASIA_MIN_LAT ASIA_MAX_LAT ASIA_MIN_LON ASIA_MAX_LON
       SCREEN_WIDTH SCREEN_HEIGHT 1%float 0%float 0%float)
    1%float 0%float 0%float (0, 0) None true.

(** The events [handle_events] distinguishes. *)
Inductive event : Type :=
| QUIT
| KEYDOWN (key : Z)
| MOUSEMOTION (pos : Z * Z)
| MOUSEWHEEL (y : Z)
| OtherEvent.

Definition K_ESCAPE : Z := 27.

(** [min(a, b)] and [max(a, b)] on two floats: the first argument is kept
    unless the second is strictly smaller (greater). *)
Definition py_min (a b : float) : float := if (b <? a)%float then b else a.
Definition py_max (a b : float) : float := if (a <? b)%float then b else a.

(** The zoom a wheel event leaves (lines 671-672). *)
Definition wheel_zoom (zoom : float) (y : Z) : float :=
  let zoom_delta := if 0 <? y then 0.1%float else (-0.1)%float in
  py_max 0.5 (py_min 3.0 (zoom + zoom_delta)).

(** One iteration of the loop of [handle_events] (lines 658-675). *)
Definition handle_event (self : AppView) (e : event) : AppView :=
  match e with
  | QUIT =>
      mkView (transformer self) (app_zoom self) (app_pan_x self)
        (app_pan_y self) (mouse_pos self) (hovered_airplane self) false
  | KEYDOWN key =>
      if key =? K_ESCAPE
      then mkView (transformer self) (app_zoom self) (app_pan_x self)
             (app_pan_y self) (mouse_pos self) (hovered_airplane self) false
      else self
  | MOUSEMOTION pos =>
      mkView (transformer self) (app_zoom self) (app_pan_x self)
        (app_pan_y self) pos (hovered_airplane self) (running self)
  | MOUSEWHEEL y =>
      let z := wheel_zoom (app_zoom self) y in
      let t := transformer self in
      mkView
        (mkTransformer (min_lat t) (max_lat t) (min_lon t) (max_lon t)
           (screen_width t) (screen_height t) z (pan_x t) (pan_y t))
        z (app_pan_x self) (app_pan_y self) (mouse_pos self)
        (hovered_airplane self) (running self)
  | OtherEvent => self
  end.

(** [handle_events] on the queue [pygame.event.get()] returns. *)
Definition handle_events (self : AppView) (events : list event) : AppView :=
  fold_left handle_event events self.

(** [math.sqrt((mx - x)**2 + (my - y)**2) < 20] (lines 569-571): the sum is
    an int, converted to a float for the square root. *)
Definition within_hover_radius (mouse pixel : Z * Z) : result bool :=
  n <- Py.float_of_int ((fst mouse - fst pixel) ^ 2
                        + (snd mouse - snd pixel) ^ 2) ;;
  Ok (sqrt n <? 20)%float.

(** The loop of [check_hover] (lines 565-573): the first airplane, in the
    order of the dict, whose pixel is within the radius. *)
Fixpoint find_hovered (t : CoordinateTransformer) (mouse : Z * Z)
    (planes : dict) : result (option Airplane) :=
  match planes with
  | [] => Ok None
  | (_, airplane) :: rest =>
      pixel <- geo_to_screen t (display_lat airplane) (display_lon airplane) ;;
      near <- within_hover_radius mouse pixel ;;
      if near then Ok (Some airplane) else find_hovered t mouse rest
  end.

(** [check_hover]. *)
Definition check_hover (self : AppView) (planes : dict) : result AppView :=
  hovered <- find_hovered (transformer self) (mouse_pos self) planes ;;
  Ok (mkView (transformer self) (app_zoom self) (app_pan_x self)
        (app_pan_y self) (mouse_pos self) hovered (running self)).

(** The top-left corner of the tooltip of [draw_hover_info] (lines 595-609),
    a box of 250 by 5 * 20 + 2 * 10 pixels placed near the pointer. *)
Definition hover_box_width : Z := 250.
Definition hover_box_height : Z := 5 * 20 + 10 * 2.

Definition hover_box_position (mouse : Z * Z) : Z * Z :=
  let box_x := fst mouse + 20 in
  let box_y := snd mouse + 20 in
  let box_x :=
    if SCREEN_WIDTH <? box_x + hover_box_width
    then fst mouse - hover_box_width - 20 else box_x in
  let box_y :=
    if SCREEN_HEIGHT <? box_y + hover_box_height
    then snd mouse - hover_box_height - 20 else box_y in
  (box_x, box_y).

(** The hover test on the squared distance [n], computed with the primitive
    conversion of machine integers, compared with [n < 400]. *)
Definition hover_test_agrees (n : Z) : bool :=
  let f := of_uint63 (Uint63.of_Z n) in
  negb (is_infinity f) && Bool.eqb (sqrt f <? 20)%float (n <? 400).

Fixpoint all_agree (fuel : nat) (i : Z) : bool :=
  match fuel with
  | O => true
  | S k => if hover_test_agrees i then all_agree k (i + 1) else false
  end.

(** The pixel of an airplane is within the hover radius of the pointer. *)
Definition hovers (t : CoordinateTransformer) (mouse : Z * Z) (a : Airplane)
  : result bool :=
  pixel <- geo_to_screen t (display_lat a) (display_lon a) ;;
  within_hover_radius mouse pixel.

(** A pixel inside the window. *)
Definition on_screen (p : Z * Z) : Prop :=
  0 <= fst p < SCREEN_WIDTH /\ 0 <= snd p < SCREEN_HEIGHT.

(** A zoom inside the range of the clamp. *)
Definition zoom_in_range (z : float) : bool :=
  (0.5 <=? z)%float && (z <=? 3.0)%float.

(** An event that stops the application. *)
Definition stops (e : event) : bool :=
  match e with
  | QUIT => true
  | KEYDOWN key => key =? K_ESCAPE
  | _ => false
  end.

Definition is_wheel (e : event) : bool :=
  match e with MOUSEWHEEL _ => true | _ => false end.

(** Flight JAL123 as the first snapshot of the sample feed creates it. *)
Definition tokyo_airplane : Airplane :=
  mkAirplane (PStr "abc123") "JAL123" 35.68 139.76 35.68 139.76
    (PFloat 90) (PFloat 10000) (PFloat 250) 0 35.68 139.76
    [(35.68%float, 139.76%float)] 20 (60, 220, 210).

(** ** Invariants of the tracked airplanes *)

(** An airplane stored under the key [k]: the key is that of its own
    identifier, the counter and the trail are within their bounds, the newest
    trail entry is the target, the target is in view of the application's
    transformer, heading, altitude and velocity hold a value, and the colour
    is the one of the callsign. *)
Definition plane_ok (k : key) (a : Airplane) : Prop :=
  dict_key (icao24 a) = Ok k
  /\ 0 <= interp_step a <= INTERPOLATION_STEPS
  /\ max_trail_length a = 20
  /\ (List.length (trail a) <= 20)%nat
  /\ (exists older, trail a = older ++ [target a])
  /\ is_in_view (transformer AppView_init) (target_lat a) (target_lon a) = true
  /\ heading a <> PNone /\ altitude a <> PNone /\ velocity a <> PNone
  /\ color a = color_of_callsign (callsign a).

(** A colour pygame accepts: three channels between 0 and 255. *)
Definition valid_rgb (c : Z * Z * Z) : Prop :=
  let '(r, g, b) := c in
  0 <= r <= 255 /\ 0 <= g <= 255 /\ 0 <= b <= 255.

(** What identifies an airplane on the screen besides its position. *)
Definition identity (a : Airplane) : pyval * string * (Z * Z * Z) :=
  (icao24 a, callsign a, color a).

Definition is_str (v : pyval) : bool :=
  match v with PStr _ => true | _ => false end.

(** A dictionary of airplanes without repeated key, each entry well formed. *)
Definition dict_ok (d : dict) : Prop :=
  NoDup (map fst d) /\ Forall (fun kv => plane_ok (fst kv) (snd kv)) d.

(** A state of the application that a run reaches: the start of [run]
    followed by any number of iterations of its loop. *)
Definition reachable (s : AirplaneTrackingApp) : Prop :=
  exists w0 t0 ticks s0,
    run_start AirplaneTrackingApp_init w0 t0 = Ok s0
    /\ run_ticks s0 ticks = Ok s.

(** ** Feeds of string-identified vectors *)

(** Every state vector the parser accepts carries a string as identifier and
    as callsign. *)
Definition string_records (records : list pyval) : Prop :=
  forall r data, In r records -> parse_airplane_data r = Some data ->
    is_str (ad_icao24 data) = true /\ is_str (ad_callsign data) = true.

(** A snapshot that is a list of such vectors. *)
Definition string_feed (v : pyval) : Prop :=
  exists records, v = PList records /\ string_records records.

(** A network outcome that, when it is a 200 answer holding a JSON object,
    carries such a snapshot under "states" (or no "states" at all). *)
Definition good_outcome (o : http_outcome) : Prop :=
  forall data, o = Response 200 (Some (PDict data)) ->
    string_feed (dict_get_str data "states" (PList [])).

(** * Properties *)

(** ** Floats: the facts the proofs use *)

Lemma Prim2SF_nan_inv (x : float) : Prim2SF x = S754_nan -> x = nan.
Proof.
  intros H. rewrite <- (SF2Prim_Prim2SF x), H. reflexivity.
Qed.

Lemma Prim2SF_nan : Prim2SF nan = S754_nan.
Proof. reflexivity. Qed.

Lemma SFcompare_finite_Eq s1 m1 e1 s2 m2 e2 :
  SFcompare (S754_finite s1 m1 e1) (S754_finite s2 m2 e2) = Some Eq ->
  s1 = s2 /\ m1 = m2 /\ e1 = e2.
Proof.
  simpl. destruct s1, s2; try discriminate;
    destruct (Z.compare_spec e1 e2) as [He|He|He]; try discriminate; subst;
    intros H; injection H as H.
  - assert (Hc : Pos.compare_cont Eq m1 m2 = Eq)
      by (destruct (Pos.compare_cont Eq m1 m2); simpl in H; congruence).
    apply Pos.compare_eq in Hc. auto.
  - apply Pos.compare_eq in H. auto.
Qed.

(** Two floats that compare equal differ by a zero, or by NaN when both are
    the same infinity. *)
Lemma float_eqb_sub (a b : float) :
  (a =? b)%float = true -> is_zero (a - b) = true \/ (a - b)%float = nan.
Proof.
  rewrite FloatAxioms.eqb_spec. unfold is_zero.
  rewrite FloatAxioms.eqb_spec, sub_spec.
  unfold SFeqb at 1.
  destruct (SFcompare (Prim2SF a) (Prim2SF b)) as [[| |]|] eqn:Hc;
    try discriminate.
  intros _.
  destruct (Prim2SF a) as [sa|sa| |sa ma ea] eqn:Ha,
           (Prim2SF b) as [sb|sb| |sb mb eb] eqn:Hb;
    simpl in Hc; try discriminate;
    try (destruct sa; discriminate); try (destruct sb; discriminate).
  - left. destruct sa, sb; reflexivity.
  - destruct sa, sb; try discriminate;
      right; apply Prim2SF_nan_inv; rewrite sub_spec, Ha, Hb; reflexivity.
  - left.
    destruct (SFcompare_finite_Eq sa ma ea sb mb eb) as (-> & -> & ->);
      [exact Hc|].
    unfold SF64sub, SFsub. rewrite Z.sub_diag. reflexivity.
Qed.

Lemma is_infinity_spec (a : float) (s : bool) :
  Prim2SF a = S754_infinity s -> is_infinity a = true.
Proof.
  intros H. unfold is_infinity.
  rewrite FloatAxioms.eqb_spec, abs_spec, H. reflexivity.
Qed.

(** Two numbers that compare equal and are not infinite differ by a zero. *)
Lemma float_eqb_sub_finite (a b : float) :
  (a =? b)%float = true -> is_infinity a = false -> is_zero (a - b) = true.
Proof.
  intros He Hf. destruct (float_eqb_sub a b He) as [Hz|Hn]; [exact Hz|].
  exfalso.
  assert (Hs : SF64sub (Prim2SF a) (Prim2SF b) = S754_nan)
    by (rewrite <- sub_spec, Hn; reflexivity).
  rewrite FloatAxioms.eqb_spec in He. unfold SFeqb in He.
  destruct (Prim2SF a) as [sa|sa| |sa ma ea] eqn:Ha;
    [| rewrite (is_infinity_spec a sa Ha) in Hf; discriminate
     | discriminate |];
    destruct (Prim2SF b) as [sb|sb| |sb mb eb] eqn:Hb;
    try discriminate.
  - destruct sa, sb; discriminate.
  - destruct (SFcompare (S754_finite sa ma ea) (S754_finite sb mb eb))
      as [[| |]|] eqn:Hc; try discriminate.
    destruct (SFcompare_finite_Eq _ _ _ _ _ _ Hc) as (-> & -> & ->).
    unfold SF64sub, SFsub in Hs. rewrite Z.sub_diag in Hs. discriminate.
Qed.

Lemma div_nan_r (x : float) : (x / nan)%float = nan.
Proof.
  apply Prim2SF_nan_inv. rewrite div_spec, Prim2SF_nan.
  destruct (Prim2SF x); reflexivity.
Qed.

Lemma mul_nan_l (y : float) : (nan * y)%float = nan.
Proof.
  apply Prim2SF_nan_inv. rewrite mul_spec, Prim2SF_nan. reflexivity.
Qed.

Lemma sub_nan_l (y : float) : (nan - y)%float = nan.
Proof.
  apply Prim2SF_nan_inv. rewrite sub_spec, Prim2SF_nan. reflexivity.
Qed.

Lemma add_nan_l (y : float) : (nan + y)%float = nan.
Proof.
  apply Prim2SF_nan_inv. rewrite add_spec, Prim2SF_nan. reflexivity.
Qed.

Lemma add_nan_r (x : float) : (x + nan)%float = nan.
Proof.
  apply Prim2SF_nan_inv. rewrite add_spec, Prim2SF_nan.
  destruct (Prim2SF x) as [[|]|[|]| |]; reflexivity.
Qed.

(** ** The coordinate transformer *)

(** A pixel coordinate computed from a NaN normalised coordinate. *)
Lemma pixel_of_nan (w c z p : float) :
  Py.int (c + (nan * w - c) * z + p)%float = Raise ValueError.
Proof.
  rewrite mul_nan_l, sub_nan_l, mul_nan_l, add_nan_r, add_nan_l.
  reflexivity.
Qed.

Lemma div_degenerate (n a b : float) :
  (a =? b)%float = true ->
  Py.div n (a - b) = Raise ZeroDivisionError \/ Py.div n (a - b) = Ok nan.
Proof.
  intros H. unfold Py.div.
  destruct (float_eqb_sub a b H) as [Hz | Hn].
  - left. rewrite Hz. reflexivity.
  - right. rewrite Hn. simpl. rewrite div_nan_r. reflexivity.
Qed.

Ltac bind_step :=
  match goal with
  | |- context [bind ?r _] =>
      let E := fresh "E" in
      destruct r eqn:E; cbn [bind]; eauto
  end.

(** C3, as the claim states it, fails: on the Asia transformer the pixel of
    Tokyo (35.68, 139.76) is not within 50 pixels of (924, 311). *)
Lemma tokyo_pixel_not_near_924_311 :
  ~ exists x y,
      (t <- asia_transformer ;; geo_to_screen t 35.68%float 139.76%float)
      = Ok (x, y)
      /\ Z.abs (x - 924) <= 50 /\ Z.abs (y - 311) <= 50.
Proof.
  intros (x & y & H & Hx & Hy).
  vm_compute in H. injection H as <- <-. vm_compute in Hx. apply Hx.
  reflexivity.
Qed.

(** C3 (amended): with bounds lat [-10,55] and lon [60,150], viewport
    1200x800, zoom 1 and pan (0,0), [geo_to_screen] maps lat 35.68,
    lon 139.76 to x = 1063, y = 237. *)
Theorem tokyo_pixel :
  (t <- asia_transformer ;; geo_to_screen t 35.68%float 139.76%float)
  = Ok (1063, 237).
Proof. vm_compute. reflexivity. Qed.

(** C4, as the claim states it, fails: a transformer whose latitude bounds
    coincide is constructed without error; the error comes from the first
    [geo_to_screen] call. *)
Lemma degenerate_bounds_are_constructed :
  (10 =? 10)%float = true /\
  exists t,
    CoordinateTransformer_init 10%float 10%float 60%float 150%float
      1200 800 1%float 0%float 0%float = Ok t
    /\ geo_to_screen t 20%float 100%float = Raise ZeroDivisionError.
Proof.
  split; [reflexivity|]. eexists. split; [reflexivity|].
  vm_compute. reflexivity.
Qed.

(** C4 (amended): constructing the transformer with degenerate bounds
    ([max_lat == min_lat] or [max_lon == min_lon]) succeeds, and every later
    [geo_to_screen] call raises instead of returning coordinates; the
    exception is ZeroDivisionError unless the coinciding bounds are
    infinite. *)
Theorem degenerate_bounds_fail_at_use
    (mn_lat mx_lat mn_lon mx_lon : float) (w h : Z) (z px py : float) :
  (mx_lat =? mn_lat)%float = true \/ (mx_lon =? mn_lon)%float = true ->
  exists t,
    CoordinateTransformer_init mn_lat mx_lat mn_lon mx_lon w h z px py = Ok t
    /\ forall lat lon,
         exists e,
           geo_to_screen t lat lon = Raise e
           /\ (is_infinity mx_lat = false -> is_infinity mx_lon = false ->
               e = ZeroDivisionError).
Proof.
  intros H. eexists. split; [reflexivity|].
  intros lat lon. unfold geo_to_screen. cbn [min_lat max_lat min_lon max_lon
    screen_width screen_height zoom pan_x pan_y].
  destruct H as [H | H].
  - destruct (Py.div (lon - mn_lon) (mx_lon - mn_lon)) as [nx|e] eqn:Ex;
      cbn [bind].
    + destruct (is_infinity mx_lat) eqn:Hf.
      * destruct (div_degenerate (mx_lat - lat) _ _ H) as [-> | ->];
          cbn [bind]; [eexists; split; [reflexivity | discriminate]|].
        repeat bind_step; try (eexists; split; [reflexivity | discriminate]).
        rewrite pixel_of_nan in *. discriminate.
      * unfold Py.div at 1. rewrite (float_eqb_sub_finite _ _ H Hf).
        cbn [bind]. eexists. split; reflexivity.
    + exists e. split; [reflexivity|]. intros _ _.
      unfold Py.div in Ex. destruct (is_zero (mx_lon - mn_lon));
        congruence.
  - destruct (is_infinity mx_lon) eqn:Hf.
    + destruct (div_degenerate (lon - mn_lon) _ _ H) as [-> | ->];
        cbn [bind]; [eexists; split; [reflexivity | discriminate]|].
      repeat bind_step; try (eexists; split; [reflexivity | discriminate]).
      rewrite pixel_of_nan in *. discriminate.
    + unfold Py.div at 1. rewrite (float_eqb_sub_finite _ _ H Hf).
      cbn [bind]. eexists. split; reflexivity.
Qed.

(** The instance with latitude bounds [10, 10]. *)
Lemma degenerate_bounds_fail_at_use_witness :
  exists t,
    CoordinateTransformer_init 10%float 10%float 60%float 150%float
      1200 800 1%float 0%float 0%float = Ok t
    /\ forall lat lon, exists e, geo_to_screen t lat lon = Raise e.
Proof.
  destruct (degenerate_bounds_fail_at_use 10 10 60 150 1200 800 1 0 0)
    as (t & Ht & Hraise); [left; reflexivity|].
  exists t. split; [exact Ht|].
  intros lat lon. destruct (Hraise lat lon) as (e & He & _).
  exists e. exact He.
Defined.

(** ** The airplane: construction and [update_target] *)

(** C8: [update_target] makes the display position the previous position,
    sets the target to the new coordinates, replaces heading, altitude and
    velocity only by a value that is present, resets [interp_step] to 0 and
    appends the new position to the trail, dropping the oldest entry when the
    trail exceeds its bound; the display position and the identity are left
    as they are. *)
Theorem update_target_effect (self : Airplane) (lat lon : float)
    (h alt v : pyval) :
  let a := update_target self lat lon h alt v in
  (prev_lat a, prev_lon a) = (display_lat self, display_lon self)
  /\ (target_lat a, target_lon a) = (lat, lon)
  /\ (display_lat a, display_lon a) = (display_lat self, display_lon self)
  /\ (h = PNone -> heading a = heading self)
  /\ (h <> PNone -> heading a = h)
  /\ (alt = PNone -> altitude a = altitude self)
  /\ (alt <> PNone -> altitude a = alt)
  /\ (v = PNone -> velocity a = velocity self)
  /\ (v <> PNone -> velocity a = v)
  /\ interp_step a = 0
  /\ (Z.of_nat (List.length (trail self)) < max_trail_length self ->
      trail a = trail self ++ [(lat, lon)])
  /\ (max_trail_length self <= Z.of_nat (List.length (trail self)) ->
      exists oldest, trail self ++ [(lat, lon)] = oldest :: trail a)
  /\ (icao24 a, callsign a, max_trail_length a, color a)
     = (icao24 self, callsign self, max_trail_length self, color self).
Proof.
  cbn zeta. unfold update_target; cbn [prev_lat prev_lon target_lat target_lon
    display_lat display_lon heading altitude velocity interp_step trail
    icao24 callsign max_trail_length color].
  repeat split.
  - intros ->. reflexivity.
  - intros Hh. destruct h; try reflexivity. contradiction.
  - intros ->. reflexivity.
  - intros Hh. destruct alt; try reflexivity. contradiction.
  - intros ->. reflexivity.
  - intros Hh. destruct v; try reflexivity. contradiction.
  - intros Hlt. rewrite length_app. cbn [List.length].
    destruct (Z.ltb_spec (max_trail_length self)
                (Z.of_nat (List.length (trail self) + 1))); [lia|reflexivity].
  - intros Hge. rewrite length_app. cbn [List.length].
    destruct (Z.ltb_spec (max_trail_length self)
                (Z.of_nat (List.length (trail self) + 1))); [|lia].
    destruct (trail self) as [|p rest]; cbn; eauto.
Qed.

(** C10: a constructor call that returns stores 0 for a missing heading,
    altitude or velocity and "Unknown" for a missing or empty callsign; a
    field given as a number or missing is a number afterwards; and the
    airplane built from a missing value is the one built from 0. *)
Theorem init_defaults (icao cs : pyval) (lat lon : float) (h alt v : pyval)
    (a : Airplane) :
  Airplane_init icao cs lat lon h alt v = Ok a ->
  (h = PNone -> heading a = PInt 0)
  /\ (alt = PNone -> altitude a = PInt 0)
  /\ (v = PNone -> velocity a = PInt 0)
  /\ (cs = PNone \/ cs = PStr EmptyString -> callsign a = "Unknown"%string)
  /\ (h = PNone \/ is_number h = true -> is_number (heading a) = true)
  /\ (alt = PNone \/ is_number alt = true -> is_number (altitude a) = true)
  /\ (v = PNone \/ is_number v = true -> is_number (velocity a) = true)
  /\ Airplane_init icao cs lat lon
       (if_not_None h (PInt 0)) (if_not_None alt (PInt 0))
       (if_not_None v (PInt 0)) = Ok a.
Proof.
  unfold Airplane_init. intros H.
  destruct (if truthy cs then _ else _) as [s|e] eqn:Hcs; cbn [bind] in *;
    [|discriminate].
  injection H as <-.
  cbn [assign_color_by_callsign heading altitude velocity callsign].
  repeat split.
  - intros ->. reflexivity.
  - intros ->. reflexivity.
  - intros ->. reflexivity.
  - intros [-> | ->]; cbn in Hcs; congruence.
  - intros [-> | Hn]; [reflexivity|]. destruct h; try discriminate; reflexivity.
  - intros [-> | Hn]; [reflexivity|]. destruct alt; try discriminate; reflexivity.
  - intros [-> | Hn]; [reflexivity|]. destruct v; try discriminate; reflexivity.
  - destruct h, alt, v; reflexivity.
Qed.

(** The instance of a flight reported without callsign, heading, altitude
    and velocity. *)
Lemma init_defaults_witness :
  exists a,
    Airplane_init (PStr "abc123") PNone 35.68%float 139.76%float
      PNone PNone PNone = Ok a
    /\ heading a = PInt 0 /\ callsign a = "Unknown"%string.
Proof.
  eexists. split; [reflexivity|].
  destruct (init_defaults (PStr "abc123") PNone 35.68%float 139.76%float
              PNone PNone PNone _ eq_refl) as (Hh & _ & _ & Hc & _).
  split; [apply Hh; reflexivity | apply Hc; left; reflexivity].
Defined.

(** ** The airplane: interpolation *)

Lemma same_course_refl (a : Airplane) : same_course a a.
Proof. repeat split. Qed.

Lemma same_course_trans (a b c : Airplane) :
  same_course a b -> same_course b c -> same_course a c.
Proof.
  unfold same_course. intros (H1 & H2 & H3 & H4) (H5 & H6 & H7 & H8).
  repeat split; congruence.
Qed.

(** The interpolation factor exists at every step below the bound. *)
Lemma fraction_ok (k : Z) :
  0 <= k < INTERPOLATION_STEPS ->
  exists t, Py.truediv_int k INTERPOLATION_STEPS = Ok t.
Proof.
  intros Hk.
  assert (E : forallb (fun n => is_ok (Py.truediv_int (Z.of_nat n)
                                         INTERPOLATION_STEPS))
                (seq 0 30) = true) by (vm_compute; reflexivity).
  rewrite forallb_forall in E. specialize (E (Z.to_nat k)).
  unfold INTERPOLATION_STEPS in Hk.
  rewrite Z2Nat.id in E by lia.
  destruct (Py.truediv_int k INTERPOLATION_STEPS) as [t|e]; [eauto|].
  assert (In (Z.to_nat k) (seq 0 30)) by (apply in_seq; lia).
  specialize (E H). discriminate.
Qed.

(** A call below the bound moves the display to the interpolated point and
    advances the counter. *)
Lemma interpolate_below (a : Airplane) :
  0 <= interp_step a < INTERPOLATION_STEPS ->
  exists t a',
    Py.truediv_int (interp_step a) INTERPOLATION_STEPS = Ok t
    /\ interpolate a = Ok a'
    /\ interp_step a' = interp_step a + 1
    /\ (display_lat a', display_lon a')
       = (linear_interpolation (prev_lat a) (target_lat a) t,
          linear_interpolation (prev_lon a) (target_lon a) t)
    /\ same_course a a'.
Proof.
  intros Hk. destruct (fraction_ok _ Hk) as [t Ht].
  exists t. unfold interpolate.
  destruct (Z.ltb_spec (interp_step a) INTERPOLATION_STEPS); [|lia].
  rewrite Ht. cbn [bind]. eexists. split; [reflexivity|].
  split; [reflexivity|]. repeat split.
Qed.

(** A call at the bound pins the display to the target. *)
Lemma interpolate_at_bound (a : Airplane) :
  INTERPOLATION_STEPS <= interp_step a ->
  exists a',
    interpolate a = Ok a'
    /\ interp_step a' = interp_step a
    /\ (display_lat a', display_lon a') = (target_lat a, target_lon a)
    /\ same_course a a'.
Proof.
  intros Hk. unfold interpolate.
  destruct (Z.ltb_spec (interp_step a) INTERPOLATION_STEPS); [lia|].
  eexists. split; [reflexivity|]. repeat split.
Qed.

Lemma interpolate_n_S (n : nat) (a : Airplane) :
  interpolate_n (S n) a = (b <- interpolate_n n a ;; interpolate b).
Proof.
  revert a. induction n as [|n IH]; intros a.
  - cbn. destruct (interpolate a); reflexivity.
  - change (interpolate_n (S (S n)) a)
      with (x <- interpolate a ;; interpolate_n (S n) x).
    change (interpolate_n (S n) a)
      with (x <- interpolate a ;; interpolate_n n x).
    destruct (interpolate a) as [x|e]; cbn [bind]; [apply IH | reflexivity].
Qed.

(** [n] calls from a counter [k] with [k + n] within the bound: the counter
    is [k + n] and the display is the point interpolated at [k + n - 1]. *)
Lemma interpolate_n_below (n : nat) (a : Airplane) :
  0 <= interp_step a ->
  interp_step a + Z.of_nat (S n) <= INTERPOLATION_STEPS ->
  exists t a',
    Py.truediv_int (interp_step a + Z.of_nat n) INTERPOLATION_STEPS = Ok t
    /\ interpolate_n (S n) a = Ok a'
    /\ interp_step a' = interp_step a + Z.of_nat (S n)
    /\ (display_lat a', display_lon a')
       = (linear_interpolation (prev_lat a) (target_lat a) t,
          linear_interpolation (prev_lon a) (target_lon a) t)
    /\ same_course a a'.
Proof.
  induction n as [|n IH]; intros H0 Hn.
  - destruct (interpolate_below a) as (t & a' & Ht & Ha & Hs & Hd & Hc);
      [lia|].
    exists t, a'. rewrite Z.add_0_r. cbn [interpolate_n]. rewrite Ha.
    cbn [bind].
    split; [exact Ht|]. split; [reflexivity|]. split; [lia|].
    split; assumption.
  - destruct IH as (t0 & b & _ & Hb & Hs & _ & Hc); [lia | lia |].
    destruct (interpolate_below b) as (t & a' & Ht & Ha & Hs' & Hd & Hc');
      [lia|].
    exists t, a'. rewrite interpolate_n_S, Hb. cbn [bind].
    pose proof Hc as (Ht1 & Hp1 & _).
    injection Ht1 as Ht1 Ht2. injection Hp1 as Hp1 Hp2.
    split; [rewrite <- Ht, Hs; f_equal; lia|].
    split; [exact Ha|].
    split; [lia|].
    split; [rewrite Hd; congruence|].
    exact (same_course_trans _ _ _ Hc Hc').
Qed.

(** C1, as the claim states it, fails: an airplane at (35.68, 139.76) given
    the target (36.0, 139.76) has, after exactly [INTERPOLATION_STEPS] calls
    of [interpolate], a display latitude that is not the target latitude. *)
Lemma display_not_pinned_after_steps :
  exists a0 a,
    Airplane_init (PStr "abc123") (PStr "JAL123") 35.68%float 139.76%float
      PNone PNone PNone = Ok a0
    /\ interpolate_n (Z.to_nat INTERPOLATION_STEPS)
         (update_target a0 36.0%float 139.76%float PNone PNone PNone) = Ok a
    /\ (display_lat a =? target_lat a)%float = false
    /\ display_lat a <> target_lat a.
Proof.
  eexists. eexists. split; [reflexivity|].
  split; [vm_compute; reflexivity|].
  split; [vm_compute; reflexivity|].
  intros E. apply (f_equal (fun x => (x =? 36.0)%float)) in E.
  vm_compute in E. discriminate.
Qed.

(** C1 (amended): after [update_target], exactly [INTERPOLATION_STEPS] calls
    of [interpolate] bring the counter to the bound and leave the display at
    the point interpolated with the factor (STEPS - 1) / STEPS between the
    display position held before the update and the target; one further call
    pins the display to the target exactly. *)
Theorem display_pinned_one_call_after_steps (self : Airplane)
    (lat lon : float) (h alt v : pyval) :
  let updated := update_target self lat lon h alt v in
  exists t a30 a31,
    Py.truediv_int (INTERPOLATION_STEPS - 1) INTERPOLATION_STEPS = Ok t
    /\ interpolate_n (Z.to_nat INTERPOLATION_STEPS) updated = Ok a30
    /\ interp_step a30 = INTERPOLATION_STEPS
    /\ display a30
       = (linear_interpolation (display_lat self) lat t,
          linear_interpolation (display_lon self) lon t)
    /\ interpolate_n (S (Z.to_nat INTERPOLATION_STEPS)) updated = Ok a31
    /\ display a31 = target a31
    /\ target a31 = (lat, lon).
Proof.
  cbn zeta. unfold display, target. set (u := update_target self lat lon h alt v).
  assert (Hu : interp_step u = 0) by reflexivity.
  destruct (interpolate_n_below 29 u) as (t & a30 & Ht & H30 & Hs & Hd & Hc).
  { rewrite Hu. lia. }
  { rewrite Hu. unfold INTERPOLATION_STEPS. lia. }
  rewrite Hu in Ht, Hs.
  destruct (interpolate_at_bound a30) as (a31 & H31 & _ & Hd' & Hc').
  { rewrite Hs. unfold INTERPOLATION_STEPS. lia. }
  exists t, a30, a31.
  split; [exact Ht|].
  split; [exact H30|].
  split; [rewrite Hs; reflexivity|].
  split; [exact Hd|].
  split.
  { change (Z.to_nat INTERPOLATION_STEPS) with 30%nat.
    rewrite interpolate_n_S.
    change 30%nat with (Z.to_nat INTERPOLATION_STEPS) at 1.
    change (Z.to_nat INTERPOLATION_STEPS) with 30%nat.
    rewrite H30. exact H31. }
  destruct Hc as (Ht1 & _), Hc' as (Ht2 & _).
  split; [congruence|].
  rewrite Ht2, Ht1. reflexivity.
Qed.

(** ** The airplane: invariants of every run *)

Lemma lastn_length {A : Type} (n : nat) (l : list A) :
  (List.length (lastn n l) <= n)%nat.
Proof. unfold lastn. rewrite length_skipn. lia. Qed.

(** Appending to a bounded window and dropping the head when it overflows
    is the window of the extended list. *)
Lemma lastn_snoc {A : Type} (n : nat) (l : list A) (x : A) :
  (0 < n)%nat ->
  lastn n (l ++ [x])
  = (if (n <? List.length (lastn n l ++ [x]))%nat
     then List.tl (lastn n l ++ [x]) else lastn n l ++ [x]).
Proof.
  intros Hn. unfold lastn. rewrite !length_app, length_skipn. cbn [List.length].
  destruct (Nat.ltb_spec n (List.length l - (List.length l - n) + 1)) as [H|H].
  - assert (Hl : (n <= List.length l)%nat) by lia.
    replace (List.length l + 1 - n)%nat with (S (List.length l - n)) by lia.
    rewrite skipn_app.
    replace (S (List.length l - n) - List.length l)%nat with 0%nat by lia.
    cbn [skipn].
    remember (List.length l - n)%nat as k eqn:Hk.
    assert (Hlt : (k < List.length l)%nat) by lia.
    clear - Hlt. revert k Hlt. induction l as [|y l IH]; intros k Hlt.
    + cbn in Hlt. lia.
    + destruct k as [|k].
      * reflexivity.
      * cbn [skipn]. cbn [List.length] in Hlt.
        rewrite <- IH by lia.
        destruct l as [|z l]; [cbn in Hlt; lia|]. reflexivity.
  - replace (List.length l - n)%nat with 0%nat by lia.
    replace (List.length l + 1 - n)%nat with 0%nat by lia.
    reflexivity.
Qed.

Lemma inv_pinned_next (hist : list (float * float)) (a : Airplane) :
  airplane_inv hist a ->
  exists a',
    interpolate a = Ok a' /\ airplane_inv hist a'
    /\ (interp_step a = INTERPOLATION_STEPS ->
        pinned a' /\ interp_step a' = INTERPOLATION_STEPS).
Proof.
  intros (Hs & Hm & Ht & Hp).
  destruct (Z.eq_dec (interp_step a) INTERPOLATION_STEPS) as [He|Hne].
  - destruct (interpolate_at_bound a) as (a' & Ha & Hs' & Hd & Hc); [lia|].
    destruct Hc as (Hc1 & Hc2 & Hc3 & Hc4).
    assert (Hpin : pinned a') by (unfold pinned, display, target; congruence).
    exists a'. split; [exact Ha|]. split.
    + split; [lia|]. split; [congruence|]. split; [congruence|]. auto.
    + intros _. split; [exact Hpin | congruence].
  - destruct (interpolate_below a) as (t & a' & Hf & Ha & Hs' & Hd & Hc);
      [lia|].
    destruct Hc as (Hc1 & Hc2 & Hc3 & Hc4).
    exists a'. split; [exact Ha|]. split; [|intros; contradiction].
    split; [lia|]. split; [congruence|]. split; [congruence|].
    intros He. right. exists t. split.
    + rewrite <- Hf. f_equal. lia.
    + rewrite Hd. injection Hc1 as -> ->. injection Hc2 as -> ->. reflexivity.
Qed.

Lemma inv_update_target (hist : list (float * float)) (a : Airplane)
    (lat lon : float) (h alt v : pyval) :
  airplane_inv hist a ->
  airplane_inv (hist ++ [(lat, lon)]) (update_target a lat lon h alt v).
Proof.
  intros (Hs & Hm & Ht & Hp).
  split; [cbn; unfold INTERPOLATION_STEPS; lia|].
  split; [exact Hm|].
  split.
  - unfold update_target; cbn [trail]. rewrite Hm, Ht, lastn_snoc by lia.
    destruct (Z.ltb_spec 20 (Z.of_nat (List.length (lastn 20 hist ++ [(lat, lon)]))));
      destruct (Nat.ltb_spec 20 (List.length (lastn 20 hist ++ [(lat, lon)])));
      try reflexivity; lia.
  - cbn. unfold INTERPOLATION_STEPS. lia.
Qed.

Lemma inv_init (icao cs : pyval) (lat lon : float) (h alt v : pyval)
    (a : Airplane) :
  Airplane_init icao cs lat lon h alt v = Ok a ->
  airplane_inv [(lat, lon)] a.
Proof.
  unfold Airplane_init. intros H.
  destruct (if truthy cs then _ else _) as [s|e]; cbn [bind] in H;
    [|discriminate].
  injection H as <-.
  split; [cbn; unfold INTERPOLATION_STEPS; lia|].
  split; [reflexivity|]. split; [reflexivity|].
  cbn. unfold INTERPOLATION_STEPS. lia.
Qed.

Lemma inv_apply_calls (cs : list call) (hist : list (float * float))
    (a : Airplane) :
  airplane_inv hist a ->
  exists a',
    apply_calls a cs = Ok a' /\ airplane_inv (hist ++ positions_of cs) a'.
Proof.
  revert hist a. induction cs as [|c cs IH]; intros hist a Hinv.
  - exists a. rewrite app_nil_r. split; [reflexivity | exact Hinv].
  - destruct c as [lat lon h alt v|].
    + cbn [apply_calls apply_call bind positions_of].
      destruct (IH _ _ (inv_update_target hist a lat lon h alt v Hinv))
        as (a' & Ha & Hi).
      exists a'. split; [exact Ha|].
      rewrite <- app_assoc in Hi. exact Hi.
    + cbn [apply_calls apply_call positions_of].
      destruct (inv_pinned_next hist a Hinv) as (b & Hb & Hi & _).
      rewrite Hb. cbn [bind]. apply IH. exact Hi.
Qed.

(** C7, as the claim states it, fails: after [update_target] and exactly
    [INTERPOLATION_STEPS] calls of [interpolate] the counter equals the bound
    and the display position is not the target position. *)
Lemma counter_at_bound_display_off_target :
  exists a0 a,
    Airplane_init (PStr "abc123") (PStr "JAL123") 0%float 60%float
      PNone PNone PNone = Ok a0
    /\ apply_calls a0
         (CallUpdateTarget 30%float 90%float PNone PNone PNone
          :: repeat CallInterpolate 30) = Ok a
    /\ interp_step a = INTERPOLATION_STEPS
    /\ display a = (29%float, 89%float)
    /\ target a = (30%float, 90%float)
    /\ display_lat a <> target_lat a.
Proof.
  eexists. eexists. split; [reflexivity|].
  split; [vm_compute; reflexivity|].
  split; [reflexivity|]. split; [vm_compute; reflexivity|].
  split; [reflexivity|].
  intros E. apply (f_equal (fun x => (x =? 30)%float)) in E.
  vm_compute in E. discriminate.
Qed.

(** C7 (amended): every sequence of [update_target] and [interpolate] calls
    after construction runs without error and reaches a state with
    0 <= interp_step <= INTERPOLATION_STEPS, at most 20 trail entries, the
    trail being the last 20 positions received (oldest dropped first); when
    interp_step == INTERPOLATION_STEPS the display position is the target or
    the last interpolated point, and the next [interpolate] call pins it to
    the target. *)
Theorem airplane_invariants (icao cs : pyval) (lat lon : float)
    (h alt v : pyval) (a0 : Airplane) (calls : list call) :
  Airplane_init icao cs lat lon h alt v = Ok a0 ->
  exists a,
    apply_calls a0 calls = Ok a
    /\ 0 <= interp_step a <= INTERPOLATION_STEPS
    /\ (List.length (trail a) <= 20)%nat
    /\ trail a = lastn 20 ((lat, lon) :: positions_of calls)
    /\ (interp_step a = INTERPOLATION_STEPS -> pinned a \/ at_last_point a)
    /\ exists a',
         interpolate a = Ok a'
         /\ (interp_step a = INTERPOLATION_STEPS ->
             pinned a' /\ interp_step a' = INTERPOLATION_STEPS).
Proof.
  intros H0.
  destruct (inv_apply_calls calls _ _ (inv_init _ _ _ _ _ _ _ _ H0))
    as (a & Ha & Hinv).
  exists a. split; [exact Ha|].
  pose proof Hinv as (Hs & Hm & Ht & Hp).
  split; [exact Hs|].
  split; [rewrite Ht; apply lastn_length|].
  split; [exact Ht|].
  split; [exact Hp|].
  destruct (inv_pinned_next _ _ Hinv) as (a' & Ha' & _ & Hpin).
  exists a'. split; assumption.
Qed.

(** The instance of one update followed by one interpolation. *)
Lemma airplane_invariants_witness :
  exists a0 a,
    Airplane_init (PStr "abc123") (PStr "JAL123") 0%float 60%float
      PNone PNone PNone = Ok a0
    /\ apply_calls a0
         [CallUpdateTarget 30 90 PNone PNone PNone; CallInterpolate] = Ok a
    /\ 0 <= interp_step a <= INTERPOLATION_STEPS.
Proof.
  eexists.
  destruct (airplane_invariants (PStr "abc123") (PStr "JAL123") 0 60
              PNone PNone PNone _
              [CallUpdateTarget 30 90 PNone PNone PNone; CallInterpolate]
              eq_refl) as (a & Ha & Hs & _).
  exists a. split; [reflexivity|]. split; [exact Ha | exact Hs].
Defined.

(** ** The dictionary *)

Lemma key_eqb_spec (x y : key) : reflect (x = y) (key_eqb x y).
Proof.
  unfold key_eqb. destruct (key_eq_dec x y); constructor; assumption.
Qed.

Lemma key_eqb_refl (x : key) : key_eqb x x = true.
Proof. destruct (key_eqb_spec x x); congruence. Qed.

Lemma key_in_spec (k : key) (l : list key) : key_in k l = true <-> In k l.
Proof.
  unfold key_in. rewrite existsb_exists. split.
  - intros (x & Hin & Hx). destruct (key_eqb_spec k x); congruence.
  - intros H. exists k. split; [exact H | apply key_eqb_refl].
Qed.

Lemma key_in_app (k : key) (l1 l2 : list key) :
  key_in k (l1 ++ l2) = key_in k l1 || key_in k l2.
Proof. unfold key_in. apply existsb_app. Qed.

Lemma dict_get_set_same (k : key) (a : Airplane) (d : dict) :
  dict_get k d <> None -> dict_get k (dict_set k a d) = Some a.
Proof.
  induction d as [|[k' a'] d IH]; cbn; [congruence|].
  destruct (key_eqb_spec k k') as [->|Hne]; cbn.
  - rewrite key_eqb_refl. reflexivity.
  - destruct (key_eqb_spec k k'); [contradiction|]. exact IH.
Qed.

Lemma dict_get_set_other (k k' : key) (a : Airplane) (d : dict) :
  k <> k' -> dict_get k (dict_set k' a d) = dict_get k d.
Proof.
  intros Hne. induction d as [|[k0 a0] d IH]; cbn; [reflexivity|].
  destruct (key_eqb_spec k' k0) as [->|Hne']; cbn.
  - destruct (key_eqb_spec k k0); [contradiction | reflexivity].
  - destruct (key_eqb_spec k k0); [reflexivity | exact IH].
Qed.

Lemma dict_set_length (k : key) (a : Airplane) (d : dict) :
  List.length (dict_set k a d) = List.length d.
Proof.
  induction d as [|[k' a'] d IH]; cbn; [reflexivity|].
  destruct (key_eqb k k'); cbn; congruence.
Qed.

Lemma dict_get_app (k : key) (d1 d2 : dict) :
  dict_get k (d1 ++ d2)
  = match dict_get k d1 with Some a => Some a | None => dict_get k d2 end.
Proof.
  induction d1 as [|[k' a'] d1 IH]; cbn; [reflexivity|].
  destruct (key_eqb k k'); [reflexivity | exact IH].
Qed.

Lemma dict_get_filter (p : key -> bool) (k : key) (d : dict) :
  dict_get k (filter (fun kv => p (fst kv)) d)
  = if p k then dict_get k d else None.
Proof.
  induction d as [|[k' a'] d IH]; cbn; [destruct (p k); reflexivity|].
  destruct (p k') eqn:Hp; cbn.
  - destruct (key_eqb_spec k k') as [->|Hne]; [rewrite Hp; reflexivity|].
    exact IH.
  - destruct (key_eqb_spec k k') as [->|Hne]; [|exact IH].
    rewrite Hp in *. exact IH.
Qed.

(** Deleting keys that are not the head key leaves the head in place. *)
Lemma fold_del_cons (l : list key) (k : key) (a : Airplane) (d : dict) :
  ~ In k l ->
  fold_left (fun d icao => dict_del icao d) l ((k, a) :: d)
  = (k, a) :: fold_left (fun d icao => dict_del icao d) l d.
Proof.
  revert d. induction l as [|k' l IH]; intros d Hnin; [reflexivity|].
  cbn [fold_left dict_del].
  destruct (key_eqb_spec k' k) as [->|Hne]; [exfalso; apply Hnin; now left|].
  apply IH. intros H. apply Hnin. now right.
Qed.

(** Deleting, one [del] at a time, the keys selected by [q] keeps exactly the
    entries [q] rejects. *)
Lemma fold_del_filter (q : key -> bool) (d : dict) :
  fold_left (fun d icao => dict_del icao d) (filter q (map fst d)) d
  = filter (fun kv => negb (q (fst kv))) d.
Proof.
  induction d as [|[k a] d IH]; [reflexivity|].
  cbn [map fst filter]. destruct (q k) eqn:Hq; cbn [negb].
  - cbn [fold_left dict_del]. rewrite key_eqb_refl. exact IH.
  - rewrite fold_del_cons, IH; [reflexivity|].
    intros Hin. apply filter_In in Hin. destruct Hin as [_ Hq']. congruence.
Qed.

(** The eviction pass of [update_airplanes]. *)
Lemma eviction_filter (d : dict) (cur : list key) (now : key -> float)
    (lau : float) :
  fold_left (fun d icao => dict_del icao d) (icao_to_remove d cur now lau) d
  = filter (fun kv => kept_by_eviction cur now lau (fst kv)) d.
Proof.
  unfold icao_to_remove, kept_by_eviction. rewrite fold_del_filter.
  apply filter_ext. intros kv.
  destruct (key_in (fst kv) cur), (grace_exceeded (now (fst kv)) lau);
    reflexivity.
Qed.

Lemma dict_get_In (k : key) (a : Airplane) (d : dict) :
  dict_get k d = Some a -> In (k, a) d.
Proof.
  induction d as [|[k' a'] d IH]; cbn; [discriminate|].
  destruct (key_eqb_spec k k') as [->|Hne].
  - intros H. injection H as ->. now left.
  - intros H. right. exact (IH H).
Qed.

Lemma dict_get_None_keys (k : key) (d : dict) :
  dict_get k d = None <-> ~ In k (map fst d).
Proof.
  induction d as [|[k' a'] d IH]; cbn; [tauto|].
  destruct (key_eqb_spec k k') as [->|Hne].
  - split; [discriminate | intros H; exfalso; apply H; now left].
  - rewrite IH. split; [intros H [E|Hin]; [congruence | tauto] | tauto].
Qed.

Lemma tracked_keys (k : key) (d : dict) : tracked k d <-> In k (map fst d).
Proof.
  unfold tracked. split.
  - intros H. destruct (in_dec key_eq_dec k (map fst d)) as [Hin|Hout];
      [exact Hin|]. exfalso. apply H. apply dict_get_None_keys. exact Hout.
  - intros Hin Hnone. exact (proj1 (dict_get_None_keys k d) Hnone Hin).
Qed.



(** ** The merge loop of [update_airplanes] *)

Lemma init_position (icao cs : pyval) (lat lon : float) (h alt v : pyval)
    (a : Airplane) :
  Airplane_init icao cs lat lon h alt v = Ok a ->
  target a = (lat, lon) /\ display a = (lat, lon).
Proof.
  unfold Airplane_init. intros H.
  destruct (if truthy cs then _ else _) as [s|e]; cbn [bind] in H;
    [|discriminate].
  injection H as <-. split; reflexivity.
Qed.

(** What one iteration does to the dictionary and to the list of keys. *)
Lemma record_effect (d d1 : dict) (cur cur1 : list key) (r : pyval) :
  reconcile_record (d, cur) r = Ok (d1, cur1) ->
  match record_key r with
  | None => d1 = d /\ cur1 = cur
  | Some k =>
      cur1 = cur ++ [k]
      /\ (forall k', k' <> k -> dict_get k' d1 = dict_get k' d)
      /\ List.length d <= List.length d1
      /\ exists a1,
           dict_get k d1 = Some a1
           /\ record_position r = Some (target a1)
           /\ (forall a, dict_get k d = Some a ->
                 display a1 = display a
                 /\ List.length d1 = List.length d)
  end%nat.
Proof.
  unfold reconcile_record, record_key, record_position.
  destruct (parse_airplane_data r) as [data|].
  2:{ intros H. injection H as <- <-. split; reflexivity. }
  destruct (dict_key (ad_icao24 data)) as [k|e]; cbn [bind];
    [|discriminate].
  destruct (dict_get k d) as [a|] eqn:Hget.
  - intros H. injection H as <- <-.
    split; [reflexivity|].
    split; [intros k' Hne; apply dict_get_set_other; exact Hne|].
    split; [rewrite dict_set_length; lia|].
    eexists. split; [apply dict_get_set_same; congruence|].
    split; [reflexivity|].
    intros a0 Ha0. injection Ha0 as <-.
    split; [reflexivity | apply dict_set_length].
  - destruct (Airplane_init _ _ _ _ _ _ _) as [a|e] eqn:Hinit; cbn [bind];
      [|discriminate].
    intros H. injection H as <- <-.
    destruct (init_position _ _ _ _ _ _ _ _ Hinit) as [Ht Hd].
    split; [reflexivity|].
    split.
    { intros k' Hne. rewrite dict_get_app. destruct (dict_get k' d);
        [reflexivity|]. cbn. destruct (key_eqb_spec k' k); congruence. }
    split; [rewrite length_app; lia|].
    exists a. split.
    { rewrite dict_get_app, Hget. cbn. rewrite key_eqb_refl. reflexivity. }
    split; [rewrite Ht; reflexivity|].
    intros a0 Ha0. discriminate.
Qed.

(** An iteration never removes an entry, and keeps every display position. *)
Lemma record_keeps (d d1 : dict) (cur cur1 : list key) (r : pyval)
    (k : key) (a : Airplane) :
  reconcile_record (d, cur) r = Ok (d1, cur1) ->
  dict_get k d = Some a ->
  exists a1, dict_get k d1 = Some a1 /\ display a1 = display a.
Proof.
  intros H Hget. apply record_effect in H.
  destruct (record_key r) as [k0|].
  - destruct H as (_ & Hother & _ & a1 & Hk0 & _ & Hsame).
    destruct (key_eq_dec k k0) as [->|Hne].
    + exists a1. split; [exact Hk0 | apply (Hsame a Hget)].
    + exists a. split; [rewrite Hother by exact Hne; exact Hget | reflexivity].
  - destruct H as [-> _]. exists a. split; [exact Hget | reflexivity].
Qed.

(** The effect of the whole loop, key by key: the keys collected are those
    of the snapshot; an entry whose key is in the snapshot ends with the last
    position the snapshot gives it as target; any other entry is untouched;
    no display position changes. *)
Lemma merge_effect (records : list pyval) (d d' : dict)
    (cur cur' : list key) :
  reconcile_records records (d, cur) = Ok (d', cur') ->
  cur' = cur ++ snapshot_keys records
  /\ (List.length d <= List.length d')%nat
  /\ forall k,
       (forall a, dict_get k d = Some a ->
          exists a', dict_get k d' = Some a' /\ display a' = display a)
       /\ match last_position records k with
          | Some p => exists a', dict_get k d' = Some a' /\ target a' = p
          | None => dict_get k d' = dict_get k d
          end.
Proof.
  revert d cur. induction records as [|r rest IH]; intros d cur H.
  - cbn in H. injection H as <- <-. rewrite app_nil_r.
    split; [reflexivity|]. split; [lia|]. intros k. split; [eauto|].
    reflexivity.
  - cbn [reconcile_records] in H.
    destruct (reconcile_record (d, cur) r) as [[d1 cur1]|e] eqn:Hr;
      cbn [bind] in H; [|discriminate].
    destruct (IH _ _ H) as (Hcur & Hlen & Hk).
    pose proof (record_effect _ _ _ _ _ Hr) as Heff.
    split; [|split].
    + cbn [snapshot_keys]. destruct (record_key r) as [k0|].
      * destruct Heff as (-> & _). rewrite Hcur, <- app_assoc. reflexivity.
      * destruct Heff as (_ & ->). exact Hcur.
    + destruct (record_key r) as [k0|].
      * destruct Heff as (_ & _ & Hl & _). lia.
      * destruct Heff as (-> & _). exact Hlen.
    + intros k. destruct (Hk k) as [Hdisp Hlast]. split.
      * intros a Ha.
        destruct (record_keeps _ _ _ _ _ _ _ Hr Ha) as (a1 & Ha1 & Hd1).
        destruct (Hdisp a1 Ha1) as (a' & Ha' & Hd').
        exists a'. split; [exact Ha' | congruence].
      * cbn [last_position].
        destruct (last_position rest k) as [p|]; [exact Hlast|].
        destruct (record_key r) as [k0|].
        -- destruct Heff as (_ & Hother & _ & a1 & Hk0 & Hpos & _).
           destruct (key_eqb_spec k k0) as [->|Hne].
           ++ rewrite Hpos. exists a1. split; [congruence | reflexivity].
           ++ rewrite Hlast. apply Hother. exact Hne.
        -- destruct Heff as (-> & _). exact Hlast.
Qed.

Lemma dict_set_keys (k : key) (a : Airplane) (d : dict) :
  map fst (dict_set k a d) = map fst d.
Proof.
  induction d as [|[k' a'] d IH]; cbn; [reflexivity|].
  destruct (key_eqb k k'); cbn; congruence.
Qed.

Lemma record_key_position (r : pyval) (k : key) :
  record_key r = Some k -> record_position r <> None.
Proof.
  unfold record_key, record_position.
  destruct (parse_airplane_data r); [discriminate | discriminate].
Qed.

Lemma last_position_keys (records : list pyval) (k : key) :
  In k (snapshot_keys records) <-> last_position records k <> None.
Proof.
  induction records as [|r rest IH]; cbn [snapshot_keys last_position].
  - split; [intros [] | congruence].
  - destruct (record_key r) as [k0|] eqn:Hk0.
    + cbn [In]. destruct (last_position rest k) as [p|].
      * split; [discriminate | intros _; right; apply IH; discriminate].
      * destruct (key_eqb_spec k k0) as [->|Hne].
        -- split; [intros _; exact (record_key_position _ _ Hk0) | now left].
        -- split; [intros [E|H]; [congruence | now apply IH] | congruence].
    + destruct (last_position rest k); exact IH.
Qed.



Lemma filter_all {A : Type} (p : A -> bool) (l : list A) :
  (forall x, In x l -> p x = true) -> filter p l = l.
Proof.
  induction l as [|x l IH]; intros H; [reflexivity|].
  cbn. rewrite (H x (or_introl eq_refl)). f_equal. apply IH.
  intros y Hy. apply H. now right.
Qed.

(** The eviction pass, key by key. *)
Lemma eviction_get (d : dict) (cur : list key) (now : key -> float)
    (lau : float) (k : key) :
  dict_get k
    (fold_left (fun d icao => dict_del icao d) (icao_to_remove d cur now lau) d)
  = if grace_exceeded (now k) lau && negb (key_in k cur)
    then None else dict_get k d.
Proof.
  rewrite eviction_filter.
  rewrite (dict_get_filter (kept_by_eviction cur now lau)).
  unfold kept_by_eviction.
  destruct (key_in k cur), (grace_exceeded (now k) lau); reflexivity.
Qed.

(** ** Reconcile: eviction *)

(** [update_airplanes] in terms of the snapshot it fetches. *)
Lemma update_airplanes_reconcile (self : AirplaneTrackingApp) (w : world)
    (self' : AirplaneTrackingApp) :
  snd (update_airplanes self w) = Ok self' ->
  reconcile (airplanes self) (fetched self w) (evict_time w)
    (last_api_update self) = Ok (airplanes self')
  /\ last_api_update self' = last_api_update self.
Proof.
  unfold update_airplanes, fetched.
  destruct (fetch_airplanes _ _ _) as [[f raw] req]. cbn [snd].
  destruct (reconcile _ _ _ _) as [d|e]; cbn [bind]; [|discriminate].
  intros H. injection H as <-. split; reflexivity.
Qed.

(** The dictionary [reconcile] returns, key by key. *)
Lemma reconcile_get (d d' : dict) (raw : pyval) (now : key -> float)
    (lau : float) :
  reconcile d raw now lau = Ok d' ->
  exists records d1,
    iterate raw = Ok records
    /\ reconcile_records records (d, []) = Ok (d1, snapshot_keys records)
    /\ forall k,
         dict_get k d'
         = if grace_exceeded (now k) lau
              && negb (key_in k (snapshot_keys records))
           then None else dict_get k d1.
Proof.
  unfold reconcile. destruct (iterate raw) as [records|e]; cbn [bind];
    [|discriminate].
  destruct (reconcile_records records (d, [])) as [[d1 cur]|e] eqn:Hm;
    cbn [bind]; [|discriminate].
  intros H. injection H as <-.
  destruct (merge_effect _ _ _ _ _ Hm) as (Hcur & _). cbn in Hcur. subst cur.
  exists records, d1. split; [reflexivity|]. split; [exact Hm|].
  intros k. apply eviction_get.
Qed.

(** One eviction pass.  An airplane tracked before the call stays tracked
    exactly when it is in the current snapshot or the clock reading taken for
    it does not exceed [last_api_update] by more than 60 seconds: the window
    is measured from the stamp of the loop, not from the last successful
    fetch. *)
Lemma update_airplanes_eviction (self : AirplaneTrackingApp) (w : world)
    (self' : AirplaneTrackingApp) (k : key) :
  snd (update_airplanes self w) = Ok self' ->
  tracked k (airplanes self) ->
  (tracked k (airplanes self')
   <-> key_in k (fetched_keys self w) = true
       \/ grace_exceeded (evict_time w k) (last_api_update self) = false).
Proof.
  intros H Ht. destruct (update_airplanes_reconcile _ _ _ H) as [Hr _].
  destruct (reconcile_get _ _ _ _ _ Hr) as (records & d1 & Hit & Hm & Hget).
  assert (Hkeys : fetched_keys self w = snapshot_keys records).
  { unfold fetched_keys. unfold fetched in Hit.
    destruct (fetch_airplanes _ _ _) as [[f raw] req]. rewrite Hit.
    reflexivity. }
  destruct (merge_effect _ _ _ _ _ Hm) as (_ & _ & Hk).
  assert (Hkeep : dict_get k d1 <> None).
  { unfold tracked in Ht.
    destruct (dict_get k (airplanes self)) as [a|] eqn:Ha; [|congruence].
    destruct (proj1 (Hk k) a Ha) as (a' & Ha' & _). congruence. }
  unfold tracked. rewrite Hget, Hkeys.
  destruct (key_in k (snapshot_keys records)),
    (grace_exceeded (evict_time w k) (last_api_update self));
    cbn [andb negb]; split; intros Hx;
    first [ exact Hkeep | left; reflexivity | right; reflexivity
          | exfalso; apply Hx; reflexivity
          | destruct Hx as [Hx|Hx]; discriminate Hx ].
Qed.

(** ** Reconcile: running it twice *)





(** ** The loop of [run]: the rate of feed requests *)

(** A tick requests the feed only through [update_airplanes], which it calls
    only when the interval has elapsed since [last_api_update]. *)
Lemma tick_request_gate (self : AirplaneTrackingApp) (t : float) (w : world) :
  fst (tick self t w) = true ->
  (API_UPDATE_INTERVAL <=? t - last_api_update self)%float = true
  /\ (fetch_time w - last_fetch_time (api_fetcher self)
      <? API_UPDATE_INTERVAL)%float = false.
Proof.
  unfold tick.
  destruct (interpolate_all (airplanes self)) as [planes|e];
    [|discriminate].
  destruct (API_UPDATE_INTERVAL <=? t - last_api_update self)%float;
    [|discriminate].
  unfold update_airplanes, fetch_airplanes; cbn [api_fetcher].
  destruct (fetch_time w - last_fetch_time (api_fetcher self)
            <? API_UPDATE_INTERVAL)%float; [discriminate|].
  intros _. split; reflexivity.
Qed.

(** A tick that returns leaves in [last_api_update] its own clock reading
    when it called [update_airplanes], and the old value otherwise. *)
Lemma tick_last_api_update (self self' : AirplaneTrackingApp) (t : float)
    (w : world) :
  snd (tick self t w) = Ok self' ->
  last_api_update self'
  = if (API_UPDATE_INTERVAL <=? t - last_api_update self)%float
    then t else last_api_update self.
Proof.
  unfold tick.
  destruct (interpolate_all (airplanes self)) as [planes|e];
    [|discriminate].
  destruct (API_UPDATE_INTERVAL <=? t - last_api_update self)%float.
  - destruct (update_airplanes _ w) as [req [s|e]]; cbn [snd bind];
      [|discriminate].
    intros H. injection H as <-. reflexivity.
  - cbn [snd]. intros H. injection H as <-. reflexivity.
Qed.

(** After any number of ticks [last_api_update] is the initial value or the
    clock reading of one of the ticks. *)
Lemma run_ticks_last_api_update (ticks : list (float * world))
    (self self' : AirplaneTrackingApp) :
  run_ticks self ticks = Ok self' ->
  In (last_api_update self') (last_api_update self :: map fst ticks).
Proof.
  revert self. induction ticks as [|[t w] rest IH]; intros self H.
  - cbn in H. injection H as <-. now left.
  - cbn [run_ticks] in H.
    destruct (snd (tick self t w)) as [s|e] eqn:Ht; cbn [bind] in H;
      [|discriminate].
    apply IH in H. rewrite (tick_last_api_update _ _ _ _ Ht) in H.
    cbn [map fst In] in *.
    destruct (API_UPDATE_INTERVAL <=? t - last_api_update self)%float;
      destruct H as [H|H]; auto.
Qed.

(** C5: a tick requests the feed only when its timestamp exceeds
    [last_api_update] by at least [API_UPDATE_INTERVAL]; a tick that requests
    the feed stores its timestamp in [last_api_update] whatever the outcome
    of the request; hence, when a tick requests the feed after an earlier
    requesting tick or after the initial fetch of [run], its timestamp
    exceeds by at least the interval the timestamp stored last, which is that
    of the earlier request or of a tick after it. *)
Theorem feed_rate_limit :
  (forall self t w,
     fst (tick self t w) = true ->
     (API_UPDATE_INTERVAL <=? t - last_api_update self)%float = true)
  /\ (forall self t w self',
        tick self t w = (true, Ok self') -> last_api_update self' = t)
  /\ (forall self t1 w1 s1 between s2 t2 w2,
        tick self t1 w1 = (true, Ok s1) ->
        run_ticks s1 between = Ok s2 ->
        fst (tick s2 t2 w2) = true ->
        In (last_api_update s2) (t1 :: map fst between)
        /\ (API_UPDATE_INTERVAL <=? t2 - last_api_update s2)%float = true)
  /\ (forall self w0 t0 s0 between s2 t2 w2,
        run_start self w0 t0 = Ok s0 ->
        run_ticks s0 between = Ok s2 ->
        fst (tick s2 t2 w2) = true ->
        In (last_api_update s2) (t0 :: map fst between)
        /\ (API_UPDATE_INTERVAL <=? t2 - last_api_update s2)%float = true).
Proof.
  split; [|split; [|split]].
  - intros self t w H. exact (proj1 (tick_request_gate _ _ _ H)).
  - intros self t w self' H.
    assert (Hf : fst (tick self t w) = true) by (rewrite H; reflexivity).
    assert (Hs : snd (tick self t w) = Ok self') by (rewrite H; reflexivity).
    rewrite (tick_last_api_update _ _ _ _ Hs).
    rewrite (proj1 (tick_request_gate _ _ _ Hf)). reflexivity.
  - intros self t1 w1 s1 between s2 t2 w2 H1 Hrun H2.
    assert (Hf : fst (tick self t1 w1) = true) by (rewrite H1; reflexivity).
    assert (Hs : snd (tick self t1 w1) = Ok s1) by (rewrite H1; reflexivity).
    pose proof (tick_last_api_update _ _ _ _ Hs) as Hl.
    rewrite (proj1 (tick_request_gate _ _ _ Hf)) in Hl.
    split.
    + rewrite <- Hl. apply run_ticks_last_api_update. exact Hrun.
    + exact (proj1 (tick_request_gate _ _ _ H2)).
  - intros self w0 t0 s0 between s2 t2 w2 H0 Hrun H2.
    assert (Hl : last_api_update s0 = t0).
    { unfold run_start in H0.
      destruct (snd (update_airplanes self w0)) as [s|e]; cbn [bind] in H0;
        [|discriminate].
      injection H0 as <-. reflexivity. }
    split.
    + rewrite <- Hl. apply run_ticks_last_api_update. exact Hrun.
    + exact (proj1 (tick_request_gate _ _ _ H2)).
Qed.

(** The rate limit on a run: a failed request at t = 1010 is followed by a
    tick at t = 1015 that does not ask, and a request at t = 1020. *)
Lemma feed_rate_limit_witness :
  exists s0 s1,
    run_start AirplaneTrackingApp_init
      (mkWorld 1000 (feed_response (PList [tokyo_vector])) 1000) 1000 = Ok s0
    /\ tick s0 1010 (mkWorld 1010 NoResponse 1010) = (true, Ok s1)
    /\ last_api_update s1 = 1010%float
    /\ fst (tick s1 1015 (mkWorld 1015 NoResponse 1015)) = false
    /\ fst (tick s1 1020 (mkWorld 1020 NoResponse 1020)) = true.
Proof.
  destruct (run_start _ _ _) as [s0|e] eqn:Hs0;
    vm_compute in Hs0; [|discriminate].
  injection Hs0 as Hs0. exists s0.
  destruct (tick s0 1010 (mkWorld 1010 NoResponse 1010)) as [req r] eqn:Ht.
  subst s0. pose proof Ht as Hc. vm_compute in Hc.
  injection Hc as <- <-.
  eexists. split; [reflexivity|]. split; [reflexivity|].
  split; [exact (proj1 (proj2 feed_rate_limit) _ _ _ _ Ht)|].
  split; vm_compute; reflexivity.
Defined.

(** ** The loop of [run]: eviction *)

Lemma interpolate_all_keys (d d' : dict) :
  interpolate_all d = Ok d' -> map fst d' = map fst d.
Proof.
  revert d'. induction d as [|[k a] d IH]; intros d'; cbn [interpolate_all].
  - intros H. injection H as <-. reflexivity.
  - destruct (interpolate a) as [a'|e]; cbn [bind]; [|discriminate].
    destruct (interpolate_all d) as [r|e]; cbn [bind]; [|discriminate].
    intros H. injection H as <-. cbn [map fst]. f_equal. apply IH.
    reflexivity.
Qed.

(** An iteration of the loop keeps a tracked airplane unless its eviction
    pass runs and reads, for that airplane, a time more than 60 seconds after
    the stamp. *)
Lemma tick_keeps_tracked (s s' : AirplaneTrackingApp) (run_time : float)
    (w : world) (k : key) :
  snd (tick s run_time w) = Ok s' ->
  ((API_UPDATE_INTERVAL <=? run_time - last_api_update s)%float = true ->
   grace_exceeded (evict_time w k) (last_api_update s) = false) ->
  tracked k (airplanes s) -> tracked k (airplanes s').
Proof.
  unfold tick. intros H Hg Ht.
  destruct (interpolate_all (airplanes s)) as [planes|e] eqn:Hi;
    [|discriminate].
  assert (Ht1 : tracked k planes).
  { apply tracked_keys. rewrite (interpolate_all_keys _ _ Hi).
    apply tracked_keys. exact Ht. }
  destruct (API_UPDATE_INTERVAL <=? run_time - last_api_update s)%float.
  - destruct (update_airplanes _ w) as [req r] eqn:Hu. cbn [snd] in H.
    destruct r as [s2|e]; cbn [bind] in H; [|discriminate].
    injection H as <-. cbn [airplanes].
    apply (update_airplanes_eviction
             (mkApp (api_fetcher s) planes (last_api_update s)) w s2 k);
      [rewrite Hu; reflexivity | exact Ht1 | right; apply Hg; reflexivity].
  - cbn [snd] in H. injection H as <-. exact Ht1.
Qed.

(** C2 (the code at fault): [update_airplanes] measures the grace window from
    [last_api_update], and [run] renews that stamp after every reconcile.
    In a run whose eviction passes each read the clock at most 60 seconds
    after the stamp of the iteration before, which is every run whose loop
    keeps iterating, no tracked airplane is ever removed, however long it has
    been absent from the snapshots and whatever the feed answers. *)
Theorem stale_airplane_kept_by_ticking_loop (ticks : list (float * world))
    (s s' : AirplaneTrackingApp) (k : key) :
  run_ticks s ticks = Ok s' ->
  regular (last_api_update s) ticks ->
  tracked k (airplanes s) ->
  tracked k (airplanes s').
Proof.
  revert s. induction ticks as [|[rt w] rest IH]; intros s H Hreg Ht.
  - cbn in H. injection H as <-. exact Ht.
  - cbn [run_ticks] in H.
    destruct (snd (tick s rt w)) as [s1|e] eqn:Htick; cbn [bind] in H;
      [|discriminate].
    cbn [regular] in Hreg.
    pose proof (tick_last_api_update _ _ _ _ Htick) as Hl.
    pose proof (tick_keeps_tracked _ _ _ _ k Htick) as Hkeep.
    destruct (API_UPDATE_INTERVAL <=? rt - last_api_update s)%float.
    + destruct Hreg as [Hg Hrest]. apply (IH s1 H).
      * rewrite Hl. exact Hrest.
      * apply Hkeep; [intros _; apply Hg | exact Ht].
    + apply (IH s1 H).
      * rewrite Hl. exact Hreg.
      * apply Hkeep; [discriminate | exact Ht].
Qed.

(** The first reconcile after the window of C2 is exceeded.  JAL123 is seen
    at the start of the run (t = 1000); the feed answers with an empty
    snapshot at t = 1010 and fails from then on.  At the reconcile of
    t = 1080 the last successful snapshot is 70 seconds old and JAL123 is
    absent from the snapshot, yet it stays tracked. *)
Lemma stale_entity_survives_grace_window :
  exists s s',
    (s0 <- run_start AirplaneTrackingApp_init
             (mkWorld 1000 (feed_response (PList [tokyo_vector])) 1000) 1000 ;;
     run_ticks s0
       [(1010%float, mkWorld 1010 (feed_response (PList [])) 1010);
        (1020%float, mkWorld 1020 NoResponse 1020);
        (1030%float, mkWorld 1030 NoResponse 1030);
        (1040%float, mkWorld 1040 NoResponse 1040);
        (1050%float, mkWorld 1050 NoResponse 1050);
        (1060%float, mkWorld 1060 NoResponse 1060);
        (1070%float, mkWorld 1070 NoResponse 1070)]) = Ok s
    /\ tick s 1080 (mkWorld 1080 NoResponse 1080) = (true, Ok s')
    /\ last_fetch_time (api_fetcher s) = 1010%float
    /\ (60 <? 1080 - last_fetch_time (api_fetcher s))%float = true
    /\ dict_get (KStr "abc123") (airplanes s) <> None
    /\ key_in (KStr "abc123")
         (fetched_keys s (mkWorld 1080 NoResponse 1080)) = false
    /\ dict_get (KStr "abc123") (airplanes s') <> None.
Proof.
  eexists. eexists.
  split; [vm_compute; reflexivity|].
  split; [vm_compute; reflexivity|].
  split; [reflexivity|]. split; [reflexivity|].
  split; [vm_compute; discriminate|].
  split; [reflexivity|].
  vm_compute. discriminate.
Qed.

(** The failing input of C2.  JAL123 is seen at the start of the run
    (t = 1000) and never again.  In the first run the feed answers with an
    empty snapshot at t = 1010 and fails from then on: at t = 1600 the last
    successful snapshot is 590 seconds old, and JAL123 is still tracked.  In
    the second run the feed answers every ten seconds with an empty
    snapshot, sixty times, and JAL123 is still tracked. *)
Lemma stale_airplane_kept_by_ticking_loop_witness :
  exists s0 s s',
    run_start AirplaneTrackingApp_init
      (mkWorld 1000 (feed_response (PList [tokyo_vector])) 1000) 1000 = Ok s0
    /\ run_ticks s0
         ((1010%float, mkWorld 1010 (feed_response (PList [])) 1010)
          :: every_ten_seconds 1020 59 NoResponse) = Ok s
    /\ last_api_update s = 1600%float
    /\ last_fetch_time (api_fetcher s) = 1010%float
    /\ cache_data (api_fetcher s) = PList []
    /\ tracked (KStr "abc123") (airplanes s)
    /\ run_ticks s0 (every_ten_seconds 1010 60 (feed_response (PList [])))
       = Ok s'
    /\ last_fetch_time (api_fetcher s') = 1600%float
    /\ cache_data (api_fetcher s') = PList []
    /\ tracked (KStr "abc123") (airplanes s').
Proof.
  destruct (run_start _ _ _) as [s0|e] eqn:Hs0;
    vm_compute in Hs0; [|discriminate].
  injection Hs0 as <-.
  match goal with
  | |- exists s0 s s', Ok ?x = Ok s0 /\ _ => set (x0 := x); exists x0
  end.
  assert (Ht0 : tracked (KStr "abc123") (airplanes x0))
    by (vm_compute; discriminate).
  destruct (run_ticks x0 (_ :: every_ten_seconds 1020 59 NoResponse))
    as [s|e] eqn:Hs; [|vm_compute in Hs; discriminate].
  destruct (run_ticks x0 (every_ten_seconds 1010 60 _))
    as [s'|e] eqn:Hs'; [|vm_compute in Hs'; discriminate].
  exists s, s'.
  assert (Hk : tracked (KStr "abc123") (airplanes s)).
  { refine (stale_airplane_kept_by_ticking_loop _ x0 s _ Hs _ Ht0).
    vm_compute.
    repeat match goal with
           | |- _ /\ _ => split
           | |- forall _, _ => intro
           end; try reflexivity; exact I. }
  assert (Hk' : tracked (KStr "abc123") (airplanes s')).
  { refine (stale_airplane_kept_by_ticking_loop _ x0 s' _ Hs' _ Ht0).
    vm_compute.
    repeat match goal with
           | |- _ /\ _ => split
           | |- forall _, _ => intro
           end; try reflexivity; exact I. }
  vm_compute in Hs. injection Hs as <-.
  vm_compute in Hs'. injection Hs' as <-.
  split; [reflexivity|]. split; [reflexivity|].
  split; [reflexivity|]. split; [reflexivity|]. split; [reflexivity|].
  split; [exact Hk|].
  split; [reflexivity|]. split; [reflexivity|]. split; [reflexivity|].
  exact Hk'.
Defined.

(** ** Reconcile: malformed records and failed fetches *)

(** A record without longitude or latitude is rejected by the parser. *)
Lemma parse_requires_position (state_vector : pyval) :
  getitem state_vector 5 = Ok PNone \/ getitem state_vector 6 = Ok PNone ->
  parse_airplane_data state_vector = None.
Proof.
  unfold parse_airplane_data, parse_body. intros [H|H].
  - rewrite H. reflexivity.
  - destruct (getitem state_vector 5) as [v5|e]; cbn [bind]; [|reflexivity].
    destruct (is_None v5); [reflexivity|]. rewrite H. reflexivity.
Qed.

(** A record the parser rejects is skipped: the rest of the snapshot is
    merged as if the record were not there. *)
Lemma rejected_record_skipped (before after : list pyval) (r : pyval)
    (st : dict * list key) :
  parse_airplane_data r = None ->
  reconcile_records (before ++ r :: after) st
  = reconcile_records (before ++ after) st.
Proof.
  intros Hr. revert st. induction before as [|r0 before IH]; intros st.
  - cbn [app reconcile_records]. unfold reconcile_record at 1.
    destruct st as [d cur]. rewrite Hr. reflexivity.
  - cbn [app reconcile_records].
    destruct (reconcile_record st r0); cbn [bind]; [apply IH | reflexivity].
Qed.

(** A request that raises, or answers with another status than 200, or
    whose body does not decode, returns the cached snapshot and leaves the
    fetcher as it was. *)
Lemma failed_request_returns_cache (self : AviationAPIFetcher)
    (current_time : float) (outcome : http_outcome) :
  outcome = NoResponse
  \/ (exists code body, outcome = Response code body /\ code <> 200)
  \/ (exists code, outcome = Response code None) ->
  fst (fetch_airplanes self current_time outcome) = (self, cache_data self).
Proof.
  unfold fetch_airplanes, fetch_try.
  destruct (current_time - last_fetch_time self <? API_UPDATE_INTERVAL)%float;
    [reflexivity|].
  intros [-> | [(code & body & -> & Hc) | (code & ->)]].
  - reflexivity.
  - destruct (Z.eqb_spec code 200); [contradiction | reflexivity].
  - destruct (code =? 200); reflexivity.
Qed.

(** C9: the code at the failing inputs.  With JAL123 tracked and its
    snapshot cached, a 200 response whose "states" is null makes
    [fetch_airplanes] return None rather than the cached snapshot, and
    [update_airplanes] raises TypeError; a snapshot holding a record whose
    callsign is a number makes [update_airplanes] raise AttributeError
    instead of skipping the record and merging the next one. *)
Theorem reconcile_raises_on_feed_data :
  (exists s0,
     run_start AirplaneTrackingApp_init
       (mkWorld 1000 (feed_response (PList [tokyo_vector])) 1000) 1000 = Ok s0
     /\ cache_data (api_fetcher s0) = PList [tokyo_vector]
     /\ fetched s0 (mkWorld 1010 (feed_response PNone) 1010) = PNone
     /\ update_airplanes s0 (mkWorld 1010 (feed_response PNone) 1010)
        = (true, Raise TypeError))
  /\ parse_airplane_data numeric_callsign_vector <> None
  /\ update_airplanes AirplaneTrackingApp_init
       (mkWorld 1000
          (feed_response (PList [numeric_callsign_vector; tokyo_vector]))
          1000)
     = (true, Raise AttributeError).
Proof.
  split; [|split].
  - eexists. split; [vm_compute; reflexivity|].
    split; [reflexivity|]. split; vm_compute; reflexivity.
  - vm_compute. discriminate.
  - vm_compute. reflexivity.
Qed.

(** ** Pointer interaction *)

(** An int below 2^63 is converted by the primitive conversion. *)
Lemma float_of_small_int (z : Z) :
  0 <= z < 2 ^ 63 ->
  SF2Prim (binary_normalize prec emax z 0 false)
  = of_uint63 (Uint63.of_Z z).
Proof.
  intros Hz. rewrite <- (SF2Prim_Prim2SF (of_uint63 (Uint63.of_Z z))).
  rewrite of_uint63_spec, Uint63.of_Z_spec.
  rewrite Z.mod_small; [reflexivity|]. exact Hz.
Qed.

Lemma all_agree_spec (fuel : nat) (i : Z) :
  all_agree fuel i = true ->
  forall j, i <= j < i + Z.of_nat fuel -> hover_test_agrees j = true.
Proof.
  revert i. induction fuel as [|k IH]; intros i H j Hj; [lia|].
  cbn [all_agree] in H. destruct (hover_test_agrees i) eqn:Hi; [|discriminate].
  destruct (Z.eq_dec j i) as [->|Hne]; [exact Hi|].
  apply (IH (i + 1) H). lia.
Qed.

(** Every squared distance two pixels of the window can have. *)
Lemma hover_test_on_screen : all_agree (Z.to_nat 2076003) 0 = true.
Proof. vm_compute. reflexivity. Qed.

(** X1: for a pointer and a pixel inside the window the hover test never
    raises and holds exactly when the squared pixel distance is below 400:
    the radius of 20 pixels is strict. *)
Theorem hover_radius_strict (mouse pixel : Z * Z) :
  on_screen mouse -> on_screen pixel ->
  within_hover_radius mouse pixel
  = Ok ((fst mouse - fst pixel) ^ 2 + (snd mouse - snd pixel) ^ 2 <? 400).
Proof.
  unfold on_screen, SCREEN_WIDTH, SCREEN_HEIGHT.
  intros [Hmx Hmy] [Hpx Hpy].
  set (n := (fst mouse - fst pixel) ^ 2 + (snd mouse - snd pixel) ^ 2).
  assert (Hn : 0 <= n < 2076003) by (unfold n; nia).
  pose proof (all_agree_spec _ _ hover_test_on_screen n) as Ha.
  rewrite Z2Nat.id in Ha by lia. specialize (Ha ltac:(lia)).
  unfold hover_test_agrees in Ha. apply andb_prop in Ha.
  destruct Ha as [Hinf Heq].
  unfold within_hover_radius, Py.float_of_int. fold n.
  rewrite float_of_small_int by lia.
  apply negb_true_iff in Hinf. rewrite Hinf. cbn [bind].
  apply Bool.eqb_prop in Heq. rewrite Heq. reflexivity.
Qed.

Lemma hover_radius_strict_witness :
  within_hover_radius (600, 400) (612, 416) = Ok false.
Proof.
  rewrite (hover_radius_strict (600, 400) (612, 416)).
  - reflexivity.
  - unfold on_screen, SCREEN_WIDTH, SCREEN_HEIGHT. cbn. lia.
  - unfold on_screen, SCREEN_WIDTH, SCREEN_HEIGHT. cbn. lia.
Defined.

(** X2: [check_hover] selects the first airplane, in the insertion order of
    the dict, that passes the hover test: every airplane before it was
    projected and failed the test, the airplanes after it are not looked at;
    when no airplane is selected every airplane failed the test.  Nothing but
    [hovered_airplane] changes. *)
Theorem check_hover_first_match (self self' : AppView) (planes : dict) :
  check_hover self planes = Ok self' ->
  match hovered_airplane self' with
  | Some a =>
      exists before k after,
        planes = before ++ (k, a) :: after
        /\ hovers (transformer self) (mouse_pos self) a = Ok true
        /\ Forall (fun kb => hovers (transformer self) (mouse_pos self)
                               (snd kb) = Ok false) before
  | None =>
      Forall (fun kb => hovers (transformer self) (mouse_pos self) (snd kb)
                        = Ok false) planes
  end
  /\ (transformer self', app_zoom self', app_pan_x self', app_pan_y self',
      mouse_pos self', running self')
     = (transformer self, app_zoom self, app_pan_x self, app_pan_y self,
        mouse_pos self, running self).
Proof.
  unfold check_hover.
  destruct (find_hovered (transformer self) (mouse_pos self) planes)
    as [h|e] eqn:Hf; cbn [bind]; [|discriminate].
  intros H. injection H as <-. cbn. split; [|reflexivity].
  revert h Hf. induction planes as [|[k a] rest IH]; intros h Hf.
  - cbn in Hf. injection Hf as <-. constructor.
  - cbn [find_hovered] in Hf.
    assert (Hh : hovers (transformer self) (mouse_pos self) a
                 = (pixel <- geo_to_screen (transformer self) (display_lat a)
                               (display_lon a) ;;
                    within_hover_radius (mouse_pos self) pixel))
      by reflexivity.
    destruct (geo_to_screen (transformer self) (display_lat a) (display_lon a))
      as [pixel|e]; cbn [bind] in Hf, Hh; [|discriminate].
    destruct (within_hover_radius (mouse_pos self) pixel) as [[|]|e];
      cbn [bind] in Hf; [| |discriminate].
    + injection Hf as <-. exists [], k, rest.
      split; [reflexivity|]. split; [exact Hh | constructor].
    + specialize (IH h Hf). destruct h as [b|].
      * destruct IH as (before & k' & after & -> & Hb & Hall).
        exists ((k, a) :: before), k', after.
        split; [reflexivity|]. split; [exact Hb|].
        constructor; [exact Hh | exact Hall].
      * constructor; [exact Hh | exact IH].
Qed.

Lemma check_hover_first_match_witness :
  exists self',
    check_hover
      (mkView (transformer AppView_init) 1 0 0 (1060, 240) None true)
      [(KStr "abc123", tokyo_airplane)] = Ok self'
    /\ hovered_airplane self' = Some tokyo_airplane.
Proof.
  destruct (check_hover _ _) as [self'|e] eqn:Hc;
    [|vm_compute in Hc; discriminate].
  exists self'. split; [reflexivity|].
  pose proof (check_hover_first_match _ _ _ Hc) as [Hm _].
  vm_compute in Hc. injection Hc as <-. reflexivity.
Defined.

(** X3: for a pointer inside the window the tooltip of [draw_hover_info]
    lies inside the window: the box is flipped to the other side of the
    pointer when it would cross the right or the bottom edge. *)
Theorem hover_box_on_screen (mouse : Z * Z) :
  on_screen mouse ->
  let (box_x, box_y) := hover_box_position mouse in
  0 <= box_x /\ box_x + hover_box_width <= SCREEN_WIDTH
  /\ 0 <= box_y /\ box_y + hover_box_height <= SCREEN_HEIGHT.
Proof.
  unfold on_screen, hover_box_position, hover_box_width, hover_box_height,
    SCREEN_WIDTH, SCREEN_HEIGHT.
  intros [Hx Hy].
  destruct (Z.ltb_spec 1200 (fst mouse + 20 + 250));
    destruct (Z.ltb_spec 800 (snd mouse + 20 + (5 * 20 + 10 * 2))); lia.
Qed.

Lemma hover_box_on_screen_witness :
  let (box_x, box_y) := hover_box_position (1100, 700) in
  0 <= box_x /\ box_x + hover_box_width <= SCREEN_WIDTH
  /\ 0 <= box_y /\ box_y + hover_box_height <= SCREEN_HEIGHT.
Proof.
  apply (hover_box_on_screen (1100, 700)).
  unfold on_screen, SCREEN_WIDTH, SCREEN_HEIGHT. cbn. lia.
Defined.

(** ** The event handler *)

Lemma float_ltb_leb (a b : float) :
  (a <? b)%float = true -> (a <=? b)%float = true.
Proof.
  rewrite ltb_spec, leb_spec. unfold SFltb, SFleb.
  destruct (SFcompare (Prim2SF a) (Prim2SF b)) as [[| |]|];
    try discriminate; reflexivity.
Qed.

(** The clamp of a wheel event absorbs every zoom, NaN included. *)
Lemma wheel_zoom_in_range (zoom : float) (y : Z) :
  zoom_in_range (wheel_zoom zoom y) = true.
Proof.
  unfold wheel_zoom, zoom_in_range, py_max, py_min.
  set (z := (zoom + (if (0 <? y)%Z then 0.1 else -0.1))%float).
  destruct (z <? 3.0)%float eqn:Hz.
  - destruct (0.5 <? z)%float eqn:Hl.
    + rewrite (float_ltb_leb _ _ Hl), (float_ltb_leb _ _ Hz). reflexivity.
    + reflexivity.
  - reflexivity.
Qed.

(** X4: after [handle_events] the zoom lies in [0.5, 3.0] and the
    transformer holds the same zoom, provided this held before or the queue
    contains a wheel event; the bounds, the window size and the pan of the
    transformer are never changed. *)
Theorem zoom_stays_clamped (self : AppView) (events : list event) :
  (zoom_in_range (app_zoom self) = true
   /\ zoom (transformer self) = app_zoom self)
  \/ existsb is_wheel events = true ->
  let self' := handle_events self events in
  zoom_in_range (app_zoom self') = true
  /\ zoom (transformer self') = app_zoom self'
  /\ (forall lat lon,
        is_in_view (transformer self') lat lon
        = is_in_view (transformer self) lat lon)
  /\ (screen_width (transformer self'), screen_height (transformer self'),
      pan_x (transformer self'), pan_y (transformer self'))
     = (screen_width (transformer self), screen_height (transformer self),
        pan_x (transformer self), pan_y (transformer self)).
Proof.
  cbn zeta. unfold handle_events. revert self.
  induction events as [|e events IH]; intros self H.
  - destruct H as [[Hr Hs]|H]; [|discriminate].
    cbn. repeat split; assumption.
  - cbn [fold_left].
    assert (Hstep :
      (forall lat lon,
         is_in_view (transformer (handle_event self e)) lat lon
         = is_in_view (transformer self) lat lon)
      /\ (screen_width (transformer (handle_event self e)),
          screen_height (transformer (handle_event self e)),
          pan_x (transformer (handle_event self e)),
          pan_y (transformer (handle_event self e)))
         = (screen_width (transformer self), screen_height (transformer self),
            pan_x (transformer self), pan_y (transformer self))).
    { destruct e as [|key|pos|y|]; cbn; try (split; reflexivity).
      destruct (key =? K_ESCAPE); split; reflexivity. }
    destruct Hstep as [Hview Hsize].
    destruct (IH (handle_event self e)) as (Hr & Hs & Hv & Hz).
    { destruct e as [|key|pos|y|]; cbn [existsb is_wheel orb] in H;
        try (destruct H as [[Hr Hs]|H]; [left; split; assumption | right; exact H]).
      - destruct H as [[Hr Hs]|H]; [left | right; exact H].
        cbn. destruct (key =? K_ESCAPE); split; assumption.
      - left. cbn. split; [apply wheel_zoom_in_range | reflexivity]. }
    split; [exact Hr|]. split; [exact Hs|]. split.
    + intros lat lon. rewrite Hv. apply Hview.
    + rewrite Hz. exact Hsize.
Qed.

Lemma zoom_stays_clamped_witness :
  zoom_in_range
    (app_zoom (handle_events AppView_init
                 (repeat (MOUSEWHEEL 1) 40 ++ [MOUSEMOTION (5, 5)]))) = true.
Proof.
  exact (proj1 (zoom_stays_clamped AppView_init
                  (repeat (MOUSEWHEEL 1) 40 ++ [MOUSEMOTION (5, 5)])
                  (or_introl (conj eq_refl eq_refl)))).
Defined.

(** X5: [handle_events] leaves the application running exactly when it was
    running and the queue holds neither a QUIT event nor a key press of
    Escape; a stopped application is never started again, and the events
    after the stopping one are still handled. *)
Theorem running_until_quit (self : AppView) (events : list event) :
  running (handle_events self events)
  = running self && negb (existsb stops events).
Proof.
  unfold handle_events. revert self.
  induction events as [|e events IH]; intros self.
  - cbn. rewrite andb_true_r. reflexivity.
  - cbn [fold_left existsb]. rewrite IH.
    destruct e as [|key|pos|y|]; cbn [handle_event stops running].
    + destruct (running self); reflexivity.
    + destruct (key =? K_ESCAPE); cbn [running orb];
        [destruct (running self); reflexivity | reflexivity].
    + reflexivity.
    + reflexivity.
    + reflexivity.
Qed.

(** ** The parser of state vectors *)

(** Comparing an int with a float that holds the integer [k]. *)
Lemma compare_int_float_integral (z k : Z) (f : float) s m e :
  Prim2SF f = S754_finite s m e -> e < 0 ->
  cond_Zopp s (Zpos m) = k * 2 ^ (- e) ->
  compare_int_float z f = Some (z ?= k).
Proof.
  intros Hf He Hk. unfold compare_int_float. rewrite Hf.
  destruct (Z.leb_spec 0 e); [lia|].
  rewrite Hk. f_equal.
  assert (Hp : 0 < 2 ^ (- e)) by (apply Z.pow_pos_nonneg; lia).
  destruct (Z.compare_spec (z * 2 ^ (- e)) (k * 2 ^ (- e)));
    destruct (Z.compare_spec z k); try reflexivity; nia.
Qed.

Lemma compare_int_bounds (z : Z) :
  compare_int_float z ASIA_MIN_LAT = Some (z ?= -10)
  /\ compare_int_float z ASIA_MAX_LAT = Some (z ?= 55)
  /\ compare_int_float z ASIA_MIN_LON = Some (z ?= 60)
  /\ compare_int_float z ASIA_MAX_LON = Some (z ?= 150).
Proof.
  repeat split;
    match goal with
    | |- compare_int_float _ ?f = _ =>
        let v := eval vm_compute in (Prim2SF f) in
        match v with
        | S754_finite ?s ?m ?e =>
            apply (compare_int_float_integral _ _ f s m e);
            [vm_compute; reflexivity | reflexivity | vm_compute; reflexivity]
        end
    end.
Qed.

(** An integer coordinate inside the region is, as a float, in view. *)
Lemma int_coord_in_range (lo hi : Z) (flo fhi : float) :
  forallb (fun n => (flo <=? coord (PInt (lo + Z.of_nat n)))%float
                    && (coord (PInt (lo + Z.of_nat n)) <=? fhi)%float)
    (seq 0 (Z.to_nat (hi - lo + 1))) = true ->
  forall z, lo <= z <= hi ->
    (flo <=? coord (PInt z))%float && (coord (PInt z) <=? fhi)%float = true.
Proof.
  intros H z Hz. rewrite forallb_forall in H.
  specialize (H (Z.to_nat (z - lo))).
  replace (lo + Z.of_nat (Z.to_nat (z - lo))) with z in H by lia.
  apply H. apply in_seq. lia.
Qed.

(** The four region tests of the parser say that the position is a pair of
    numbers in view of the application's transformer. *)
Lemma region_tests_in_view (lat lon : pyval) :
  float_le ASIA_MIN_LAT lat = Ok true ->
  le_float lat ASIA_MAX_LAT = Ok true ->
  float_le ASIA_MIN_LON lon = Ok true ->
  le_float lon ASIA_MAX_LON = Ok true ->
  is_number lat = true /\ is_number lon = true
  /\ is_in_view (transformer AppView_init) (coord lat) (coord lon) = true.
Proof.
  intros H1 H2 H3 H4.
  assert (Hint : forall z lo hi flo fhi,
            compare_int_float z flo = Some (z ?= lo) ->
            compare_int_float z fhi = Some (z ?= hi) ->
            float_le flo (PInt z) = Ok true ->
            le_float (PInt z) fhi = Ok true -> lo <= z <= hi).
  { intros z lo hi flo fhi E1 E2. unfold float_le, le_float.
    rewrite E1, E2.
    destruct (Z.compare_spec z lo), (Z.compare_spec z hi);
      intros; try discriminate; lia. }
  destruct (compare_int_bounds 0) as (Z1 & Z2 & Z3 & Z4).
  destruct (compare_int_bounds 1) as (O1 & O2 & O3 & O4).
  assert (Hlat : is_number lat = true
                 /\ (ASIA_MIN_LAT <=? coord lat)%float
                    && (coord lat <=? ASIA_MAX_LAT)%float = true).
  { destruct lat as [|b|z|g|s|l|d]; try discriminate.
    - split; [reflexivity|]. destruct b; reflexivity.
    - split; [reflexivity|].
      destruct (compare_int_bounds z) as (E1 & E2 & _).
      apply (int_coord_in_range (-10) 55); [vm_compute; reflexivity|].
      exact (Hint _ _ _ _ _ E1 E2 H1 H2).
    - split; [reflexivity|]. unfold float_le, le_float in H1, H2.
      cbn [coord]. injection H1 as ->. injection H2 as ->. reflexivity. }
  assert (Hlon : is_number lon = true
                 /\ (ASIA_MIN_LON <=? coord lon)%float
                    && (coord lon <=? ASIA_MAX_LON)%float = true).
  { destruct lon as [|b|z|g|s|l|d]; try discriminate.
    - exfalso. unfold float_le in H3.
      destruct b; cbn [Z.b2z] in H3; [rewrite O3 in H3 | rewrite Z3 in H3];
        discriminate.
    - split; [reflexivity|].
      destruct (compare_int_bounds z) as (_ & _ & E3 & E4).
      apply (int_coord_in_range 60 150); [vm_compute; reflexivity|].
      exact (Hint _ _ _ _ _ E3 E4 H3 H4).
    - split; [reflexivity|]. unfold float_le, le_float in H3, H4.
      cbn [coord]. injection H3 as ->. injection H4 as ->. reflexivity. }
  destruct Hlat as [Hn1 Hv1], Hlon as [Hn2 Hv2].
  split; [exact Hn1|]. split; [exact Hn2|].
  unfold is_in_view. cbn [transformer AppView_init min_lat max_lat min_lon
    max_lon].
  rewrite <- andb_assoc, Hv1. exact Hv2.
Qed.

Lemma getitem_list (sv : pyval) (i : nat) (v : pyval) :
  getitem sv i = Ok v ->
  (exists l, sv = PList l /\ nth_error l i = Some v)
  \/ (exists s, sv = PStr s /\ exists c, v = PStr (String c EmptyString)).
Proof.
  destruct sv as [|b|z|g|s|l|d]; cbn [getitem]; try discriminate.
  - destruct (String.get i s) as [c|]; [|discriminate].
    intros H. injection H as <-. right. eauto.
  - destruct (nth_error l i) as [x|] eqn:Hx; [|discriminate].
    intros H. injection H as <-. left. exists l. split; [reflexivity|exact Hx].
Qed.

(** What the parser has checked and read when it accepts. *)
Lemma parse_inversion (state_vector : pyval) (d : airplane_data) :
  parse_airplane_data state_vector = Some d ->
  (getitem state_vector 5 = Ok (ad_longitude d)
   /\ getitem state_vector 6 = Ok (ad_latitude d))
  /\ (float_le ASIA_MIN_LAT (ad_latitude d) = Ok true
      /\ le_float (ad_latitude d) ASIA_MAX_LAT = Ok true
      /\ float_le ASIA_MIN_LON (ad_longitude d) = Ok true
      /\ le_float (ad_longitude d) ASIA_MAX_LON = Ok true)
  /\ (getitem state_vector 0 = Ok (ad_icao24 d)
      /\ getitem state_vector 2 = Ok (ad_country d)
      /\ getitem state_vector 7 = Ok (ad_altitude d)
      /\ getitem state_vector 9 = Ok (ad_velocity d)
      /\ getitem state_vector 10 = Ok (ad_heading d))
  /\ exists v1,
       getitem state_vector 1 = Ok v1
       /\ ad_callsign d = (if truthy v1 then v1 else PStr "N/A").
Proof.
  unfold parse_airplane_data.
  destruct (parse_body state_vector) as [r|e] eqn:Hb; [|discriminate].
  intros ->. unfold parse_body in Hb.
  destruct (getitem state_vector 5) as [v5|e] eqn:G5; cbn [bind] in Hb;
    [|discriminate].
  destruct (is_None v5); [discriminate|].
  destruct (getitem state_vector 6) as [v6|e] eqn:G6; cbn [bind] in Hb;
    [|discriminate].
  destruct (is_None v6); [discriminate|].
  destruct (float_le ASIA_MIN_LAT v6) as [[|]|e] eqn:C1; cbn [bind negb] in Hb;
    try discriminate.
  destruct (le_float v6 ASIA_MAX_LAT) as [[|]|e] eqn:C2; cbn [bind negb] in Hb;
    try discriminate.
  destruct (float_le ASIA_MIN_LON v5) as [[|]|e] eqn:C3; cbn [bind negb] in Hb;
    try discriminate.
  destruct (le_float v5 ASIA_MAX_LON) as [[|]|e] eqn:C4; cbn [bind negb] in Hb;
    try discriminate.
  destruct (getitem state_vector 0) as [x0|e] eqn:G0; cbn [bind] in Hb;
    [|discriminate].
  destruct (getitem state_vector 1) as [x1|e] eqn:H1; cbn [bind] in Hb;
    [|discriminate].
  assert (Hcs : (if truthy x1 then Ok x1 else Ok (PStr "N/A"))
                = Ok (if truthy x1 then x1 else PStr "N/A"))
    by (destruct (truthy x1); reflexivity).
  rewrite Hcs in Hb. cbn [bind] in Hb.
  destruct (getitem state_vector 2) as [x2|e] eqn:G2; cbn [bind] in Hb;
    [|discriminate].
  destruct (getitem state_vector 7) as [x7|e] eqn:G7; cbn [bind] in Hb;
    [|discriminate].
  destruct (getitem state_vector 9) as [x9|e] eqn:G9; cbn [bind] in Hb;
    [|discriminate].
  destruct (getitem state_vector 10) as [x10|e] eqn:G10; cbn [bind] in Hb;
    [|discriminate].
  injection Hb as <-.
  cbn [ad_icao24 ad_callsign ad_country ad_longitude ad_latitude ad_altitude
       ad_velocity ad_heading].
  split; [split; reflexivity|].
  split; [repeat split; assumption|].
  split; [repeat split; reflexivity|].
  exists x1. split; reflexivity.
Qed.

(** X6: a state vector the parser accepts is a list of at least 11 entries;
    the dictionary holds the entries 0, 2, 5, 6, 7, 9 and 10 under icao24,
    country, longitude, latitude, altitude, velocity and heading, and entry 1
    (or "N/A" when it is false) under callsign; latitude and longitude are
    numbers, not None, and the position is in view of the application's
    transformer (the Asia bounds, inclusive). *)
Theorem parse_accepts_only_regional_vectors (state_vector : pyval)
    (d : airplane_data) :
  parse_airplane_data state_vector = Some d ->
  exists l v1,
    state_vector = PList l
    /\ (11 <= List.length l)%nat
    /\ nth_error l 0 = Some (ad_icao24 d)
    /\ nth_error l 1 = Some v1
    /\ ad_callsign d = (if truthy v1 then v1 else PStr "N/A")
    /\ truthy (ad_callsign d) = true
    /\ nth_error l 2 = Some (ad_country d)
    /\ nth_error l 5 = Some (ad_longitude d)
    /\ nth_error l 6 = Some (ad_latitude d)
    /\ nth_error l 7 = Some (ad_altitude d)
    /\ nth_error l 9 = Some (ad_velocity d)
    /\ nth_error l 10 = Some (ad_heading d)
    /\ is_number (ad_latitude d) = true
    /\ is_number (ad_longitude d) = true
    /\ is_in_view (transformer AppView_init)
         (coord (ad_latitude d)) (coord (ad_longitude d)) = true.
Proof.
  intros Hp.
  destruct (parse_inversion _ _ Hp)
    as ((H5 & H6) & (C1 & C2 & C3 & C4) & (H0 & H2 & H7 & H9 & H10)
        & v1 & H1 & Hcs).
  destruct (region_tests_in_view _ _ C1 C2 C3 C4) as (Hn1 & Hn2 & Hview).
  (* a one-character string is no number: the vector is a list *)
  destruct (getitem_list _ _ _ H6) as [(l & -> & Hl6) | (s & -> & c & E)];
    [|rewrite E in Hn1; discriminate].
  assert (Hnth : forall i v, getitem (PList l) i = Ok v -> nth_error l i = Some v).
  { intros i v. cbn [getitem]. destruct (nth_error l i); [|discriminate].
    intros H. injection H as ->. reflexivity. }
  exists l, v1. split; [reflexivity|].
  split.
  { assert (Hlt : (10 < List.length l)%nat)
      by (apply nth_error_Some; rewrite (Hnth _ _ H10); discriminate). lia. }
  split; [apply Hnth; exact H0|]. split; [apply Hnth; exact H1|].
  split; [exact Hcs|].
  split; [rewrite Hcs; destruct (truthy v1) eqn:Ht; [exact Ht | reflexivity]|].
  split; [apply Hnth; exact H2|]. split; [apply Hnth; exact H5|].
  split; [apply Hnth; exact H6|]. split; [apply Hnth; exact H7|].
  split; [apply Hnth; exact H9|]. split; [apply Hnth; exact H10|].
  split; [exact Hn1|]. split; [exact Hn2 | exact Hview].
Qed.

Lemma parse_accepts_only_regional_vectors_witness :
  exists d,
    parse_airplane_data tokyo_vector = Some d
    /\ is_in_view (transformer AppView_init)
         (coord (ad_latitude d)) (coord (ad_longitude d)) = true.
Proof.
  destruct (parse_airplane_data tokyo_vector) as [d|] eqn:Hp;
    [|vm_compute in Hp; discriminate].
  exists d. split; [reflexivity|].
  destruct (parse_accepts_only_regional_vectors _ _ Hp)
    as (l & v1 & _ & _ & _ & _ & _ & _ & _ & _ & _ & _ & _ & _ & _ & _ & Hv).
  exact Hv.
Defined.

(** X7: a list of at least 11 entries whose entries 5 and 6 are floats in
    view of the application's transformer is accepted, whatever the other
    entries are, and the dictionary holds that position. *)
Theorem parse_accepts_regional_floats (l : list pyval) (lat lon : float) :
  (11 <= List.length l)%nat ->
  nth_error l 5 = Some (PFloat lon) ->
  nth_error l 6 = Some (PFloat lat) ->
  is_in_view (transformer AppView_init) lat lon = true ->
  exists d,
    parse_airplane_data (PList l) = Some d
    /\ ad_latitude d = PFloat lat /\ ad_longitude d = PFloat lon.
Proof.
  intros Hlen H5 H6 Hview.
  assert (Hnth : forall i, (i < 11)%nat -> exists x, nth_error l i = Some x).
  { intros i Hi. destruct (nth_error l i) as [x|] eqn:Hx; [eauto|].
    apply nth_error_None in Hx. lia. }
  destruct (Hnth 0%nat ltac:(lia)) as [x0 H0].
  destruct (Hnth 1%nat ltac:(lia)) as [x1 H1].
  destruct (Hnth 2%nat ltac:(lia)) as [x2 H2].
  destruct (Hnth 7%nat ltac:(lia)) as [x7 H7].
  destruct (Hnth 9%nat ltac:(lia)) as [x9 H9].
  destruct (Hnth 10%nat ltac:(lia)) as [x10 H10].
  unfold is_in_view in Hview.
  cbn [transformer AppView_init min_lat max_lat min_lon max_lon] in Hview.
  apply andb_prop in Hview. destruct Hview as [Hview V4].
  apply andb_prop in Hview. destruct Hview as [Hview V3].
  apply andb_prop in Hview. destruct Hview as [V1 V2].
  unfold parse_airplane_data, parse_body. cbn [getitem].
  rewrite H5, H6. cbn [bind is_None float_le le_float].
  rewrite V1, V2, V3, V4. cbn [bind negb].
  rewrite H0, H1, H2, H7, H9, H10. cbn [bind].
  destruct (truthy x1); cbn [bind]; eexists; split; try reflexivity;
    split; reflexivity.
Qed.

Lemma parse_accepts_regional_floats_witness :
  exists d,
    parse_airplane_data tokyo_vector = Some d
    /\ ad_latitude d = PFloat 35.68 /\ ad_longitude d = PFloat 139.76.
Proof.
  apply (parse_accepts_regional_floats _ 35.68%float 139.76%float).
  - cbn. lia.
  - reflexivity.
  - reflexivity.
  - vm_compute. reflexivity.
Defined.

(** ** The feed reader *)


(** X9: after a call that stored a snapshot, every call made less than
    [API_UPDATE_INTERVAL] seconds later returns that snapshot without calling
    the network and without changing the fetcher, whatever the network would
    have answered. *)
Theorem fetch_served_from_cache (self self' : AviationAPIFetcher)
    (t1 t2 : float) (data : list (string * pyval)) (snapshot : pyval)
    (outcome : http_outcome) :
  fetch_airplanes self t1 (Response 200 (Some (PDict data)))
  = (self', snapshot, true) ->
  (t2 - t1 <? API_UPDATE_INTERVAL)%float = true ->
  fetch_airplanes self' t2 outcome = (self', snapshot, false).
Proof.
  unfold fetch_airplanes at 1. unfold fetch_try.
  destruct (t1 - last_fetch_time self <? API_UPDATE_INTERVAL)%float;
    [discriminate|].
  cbn [Z.eqb Pos.eqb cache_data].
  intros H Hgate.
  assert (Hs : self' = mkFetcher t1 (dict_get_str data "states" (PList []))
               /\ snapshot = dict_get_str data "states" (PList [])).
  { destruct (py_len (dict_get_str data "states" (PList []))); cbn [bind] in H;
      injection H as <- <-; split; reflexivity. }
  destruct Hs as [-> ->].
  unfold fetch_airplanes. cbn [last_fetch_time cache_data].
  rewrite Hgate. reflexivity.
Qed.

Lemma fetch_served_from_cache_witness :
  fetch_airplanes
    (mkFetcher 1000 (PList [tokyo_vector])) 1004 NoResponse
  = (mkFetcher 1000 (PList [tokyo_vector]), PList [tokyo_vector], false).
Proof.
  apply (fetch_served_from_cache AviationAPIFetcher_init _ 1000 1004
           [("time"%string, PInt 1000);
            ("states"%string, PList [tokyo_vector])]).
  - vm_compute. reflexivity.
  - vm_compute. reflexivity.
Defined.

(** ** Invariants of a run *)

Lemma if_not_None_not_None (v d : pyval) :
  d <> PNone -> if_not_None v d <> PNone.
Proof. intros Hd. destruct v; cbn; congruence. Qed.

Lemma plane_ok_init (icao cs : pyval) (lat lon : float) (h alt v : pyval)
    (a : Airplane) (k : key) :
  Airplane_init icao cs lat lon h alt v = Ok a ->
  dict_key icao = Ok k ->
  is_in_view (transformer AppView_init) lat lon = true ->
  plane_ok k a.
Proof.
  unfold Airplane_init. intros H Hk Hview.
  destruct (if truthy cs then _ else _) as [s|e]; cbn [bind] in H;
    [|discriminate].
  injection H as <-. unfold plane_ok, target.
  cbn [assign_color_by_callsign icao24 interp_step max_trail_length trail
       target_lat target_lon heading altitude velocity].
  split; [exact Hk|]. split; [unfold INTERPOLATION_STEPS; lia|].
  split; [reflexivity|]. split; [cbn; lia|].
  split; [exists []; reflexivity|]. split; [exact Hview|].
  split; [apply if_not_None_not_None; discriminate|].
  split; [apply if_not_None_not_None; discriminate|].
  split; [apply if_not_None_not_None; discriminate | reflexivity].
Qed.

Lemma plane_ok_update_target (k : key) (a : Airplane) (lat lon : float)
    (h alt v : pyval) :
  plane_ok k a ->
  is_in_view (transformer AppView_init) lat lon = true ->
  plane_ok k (update_target a lat lon h alt v).
Proof.
  intros (Hk & Hs & Hm & Hl & (older & Ht) & _ & Hh & Ha & Hv & Hc) Hview.
  unfold plane_ok, target, update_target.
  cbn [icao24 interp_step max_trail_length trail target_lat target_lon
       heading altitude velocity color callsign].
  split; [exact Hk|]. split; [unfold INTERPOLATION_STEPS; lia|].
  split; [exact Hm|].
  rewrite Hm, length_app. cbn [List.length].
  destruct (Z.ltb_spec 20 (Z.of_nat (List.length (trail a) + 1))) as [Hpop|Hkeep].
  - (* the trail was full: its oldest entry goes *)
    rewrite Ht in *. rewrite length_app in Hl, Hpop. cbn [List.length] in Hl, Hpop.
    destruct older as [|p older]; [cbn in Hpop; lia|].
    cbn [app List.tl].
    split; [rewrite !length_app; cbn [List.length] in *; lia|].
    split; [exists (older ++ [target a]); reflexivity|].
    split; [exact Hview|].
    repeat (split; [apply if_not_None_not_None; assumption|]). exact Hc.
  - split; [rewrite length_app; cbn [List.length]; lia|].
    split; [exists (trail a); reflexivity|].
    split; [exact Hview|].
    repeat (split; [apply if_not_None_not_None; assumption|]). exact Hc.
Qed.

Lemma plane_ok_interpolate (k : key) (a : Airplane) :
  plane_ok k a -> exists a', interpolate a = Ok a' /\ plane_ok k a'.
Proof.
  intros (Hk & Hs & Hm & Hl & Ht & Hview & Hh & Ha & Hv & Hc).
  unfold interpolate.
  destruct (Z.ltb_spec (interp_step a) INTERPOLATION_STEPS) as [Hlt|Hge].
  - destruct (fraction_ok (interp_step a)) as [t Hf]; [lia|].
    rewrite Hf. cbn [bind]. eexists. split; [reflexivity|].
    unfold plane_ok, target.
    cbn [icao24 interp_step max_trail_length trail target_lat target_lon
         heading altitude velocity color callsign].
    repeat (split; [first [assumption | lia]|]). assumption.
  - eexists. split; [reflexivity|].
    unfold plane_ok, target.
    cbn [icao24 interp_step max_trail_length trail target_lat target_lon
         heading altitude velocity color callsign].
    repeat (split; [first [assumption | lia]|]). assumption.
Qed.

(** In a dictionary without repeated key an entry is found under its key. *)
Lemma dict_get_of_In (k : key) (a : Airplane) (d : dict) :
  NoDup (map fst d) -> In (k, a) d -> dict_get k d = Some a.
Proof.
  induction d as [|[k' a'] d IH]; cbn; [tauto|].
  intros Hnd [E|Hin].
  - injection E as -> ->. rewrite key_eqb_refl. reflexivity.
  - inversion Hnd as [|? ? Hnot Hnd']; subst.
    destruct (key_eqb_spec k k') as [->|Hne].
    + exfalso. apply Hnot. apply (in_map fst _ _ Hin).
    + exact (IH Hnd' Hin).
Qed.

Lemma dict_ok_set (k : key) (a : Airplane) (d : dict) :
  dict_ok d -> plane_ok k a -> dict_ok (dict_set k a d).
Proof.
  intros [Hnd Hall] Hok. split; [rewrite dict_set_keys; exact Hnd|].
  clear Hnd. induction d as [|[k' a'] d IH]; cbn; [constructor|].
  inversion Hall as [|? ? Hhead Htail]; subst.
  destruct (key_eqb_spec k k') as [->|Hne].
  - constructor; [exact Hok | exact Htail].
  - constructor; [exact Hhead | exact (IH Htail)].
Qed.

Lemma dict_ok_add (k : key) (a : Airplane) (d : dict) :
  dict_ok d -> dict_get k d = None -> plane_ok k a ->
  dict_ok (d ++ [(k, a)]).
Proof.
  intros [Hnd Hall] Hnone Hok. split.
  - rewrite map_app. cbn [map fst].
    apply NoDup_app; [exact Hnd | repeat constructor; intros [] |].
    intros x Hx [<-|[]]. apply (proj1 (dict_get_None_keys _ _) Hnone Hx).
  - apply Forall_app. split; [exact Hall|].
    constructor; [exact Hok | constructor].
Qed.

Lemma dict_ok_filter (p : key * Airplane -> bool) (d : dict) :
  dict_ok d -> dict_ok (filter p d).
Proof.
  intros [Hnd Hall]. split.
  - clear Hall. induction d as [|kv d IH]; cbn; [constructor|].
    inversion Hnd as [|? ? Hnot Hnd']; subst.
    destruct (p kv); cbn; [|exact (IH Hnd')].
    constructor; [|exact (IH Hnd')].
    intros Hin. apply Hnot. apply in_map_iff in Hin.
    destruct Hin as (x & Hx & Hin). apply filter_In in Hin.
    apply in_map_iff. exists x. tauto.
  - apply Forall_forall. intros x Hx. apply filter_In in Hx.
    rewrite Forall_forall in Hall. apply Hall. tauto.
Qed.

Lemma dict_ok_get (k : key) (a : Airplane) (d : dict) :
  dict_ok d -> dict_get k d = Some a -> plane_ok k a.
Proof.
  intros [_ Hall] Hget. rewrite Forall_forall in Hall.
  exact (Hall _ (dict_get_In _ _ _ Hget)).
Qed.

Lemma dict_ok_reconcile_record (st st' : dict * list key) (r : pyval) :
  reconcile_record st r = Ok st' -> dict_ok (fst st) -> dict_ok (fst st').
Proof.
  destruct st as [planes cur]. unfold reconcile_record.
  destruct (parse_airplane_data r) as [data|] eqn:Hp;
    [|intros H; injection H as <-; tauto].
  destruct (parse_inversion _ _ Hp) as (_ & (C1 & C2 & C3 & C4) & _).
  destruct (region_tests_in_view _ _ C1 C2 C3 C4) as (_ & _ & Hview).
  destruct (dict_key (ad_icao24 data)) as [icao|e] eqn:Hk; cbn [bind];
    [|discriminate].
  destruct (dict_get icao planes) as [a|] eqn:Hget.
  - intros H Hok. injection H as <-. cbn [fst] in *.
    apply dict_ok_set; [exact Hok|].
    apply plane_ok_update_target; [|exact Hview].
    exact (dict_ok_get _ _ _ Hok Hget).
  - destruct (Airplane_init _ _ _ _ _ _ _) as [a|e] eqn:Hinit; cbn [bind];
      [|discriminate].
    intros H Hok. injection H as <-. cbn [fst] in *.
    apply dict_ok_add; [exact Hok | exact Hget|].
    exact (plane_ok_init _ _ _ _ _ _ _ _ _ Hinit Hk Hview).
Qed.

Lemma dict_ok_reconcile_records (records : list pyval) (st st' : dict * list key) :
  reconcile_records records st = Ok st' -> dict_ok (fst st) -> dict_ok (fst st').
Proof.
  revert st. induction records as [|r rest IH]; intros st; cbn [reconcile_records].
  - intros H. injection H as <-. tauto.
  - destruct (reconcile_record st r) as [st1|e] eqn:Hr; cbn [bind];
      [|discriminate].
    intros H Hok. apply (IH _ H). exact (dict_ok_reconcile_record _ _ _ Hr Hok).
Qed.

Lemma dict_ok_reconcile (planes planes' : dict) (raw : pyval)
    (now : key -> float) (lau : float) :
  reconcile planes raw now lau = Ok planes' -> dict_ok planes -> dict_ok planes'.
Proof.
  unfold reconcile.
  destruct (iterate raw) as [records|e]; cbn [bind]; [|discriminate].
  destruct (reconcile_records records (planes, [])) as [[d cur]|e] eqn:Hr;
    cbn [bind]; [|discriminate].
  intros H Hok. injection H as <-. unfold icao_to_remove.
  rewrite fold_del_filter. apply dict_ok_filter.
  exact (dict_ok_reconcile_records _ _ _ Hr Hok).
Qed.

Lemma dict_ok_update_airplanes (self self' : AirplaneTrackingApp) (w : world) :
  snd (update_airplanes self w) = Ok self' ->
  dict_ok (airplanes self) -> dict_ok (airplanes self').
Proof.
  unfold update_airplanes.
  destruct (fetch_airplanes _ _ _) as [[fetcher raw] requested]. cbn [snd].
  destruct (reconcile _ _ _ _) as [planes|e] eqn:Hr; cbn [bind]; [|discriminate].
  intros H Hok. injection H as <-. cbn [airplanes].
  exact (dict_ok_reconcile _ _ _ _ _ Hr Hok).
Qed.

(** The interpolation pass over well-formed airplanes returns, and keeps the
    keys and the invariant. *)
Lemma dict_ok_interpolate_all (d : dict) :
  Forall (fun kv => plane_ok (fst kv) (snd kv)) d ->
  exists d', interpolate_all d = Ok d'
             /\ map fst d' = map fst d
             /\ Forall (fun kv => plane_ok (fst kv) (snd kv)) d'.
Proof.
  induction d as [|[k a] d IH]; intros Hall.
  - exists []. repeat split; constructor.
  - inversion Hall as [|? ? Hhead Htail]; subst. cbn [fst snd] in Hhead.
    destruct (plane_ok_interpolate _ _ Hhead) as (a' & Ha & Hok').
    destruct (IH Htail) as (d' & Hd & Hkeys & Hall').
    exists ((k, a') :: d'). cbn [interpolate_all]. rewrite Ha, Hd. cbn [bind].
    split; [reflexivity|]. split; [cbn; congruence|].
    constructor; assumption.
Qed.

Lemma dict_ok_tick (self self' : AirplaneTrackingApp) (run_time : float)
    (w : world) :
  snd (tick self run_time w) = Ok self' ->
  dict_ok (airplanes self) -> dict_ok (airplanes self').
Proof.
  intros H [Hnd Hall]. unfold tick in H.
  destruct (dict_ok_interpolate_all _ Hall) as (d' & Hd & Hkeys & Hall').
  rewrite Hd in H.
  assert (Hok1 : dict_ok d') by (split; [rewrite Hkeys; exact Hnd | exact Hall']).
  destruct (API_UPDATE_INTERVAL <=? run_time - last_api_update self)%float.
  - destruct (update_airplanes _ w) as [requested r] eqn:Hu. cbn [snd] in H.
    destruct r as [self2|e]; cbn [bind] in H; [|discriminate].
    injection H as <-. cbn [airplanes].
    apply (dict_ok_update_airplanes
             (mkApp (api_fetcher self) d' (last_api_update self)) self2 w);
      [rewrite Hu; reflexivity | exact Hok1].
  - cbn [snd] in H. injection H as <-. exact Hok1.
Qed.

Lemma dict_ok_run_ticks (ticks : list (float * world))
    (self self' : AirplaneTrackingApp) :
  run_ticks self ticks = Ok self' ->
  dict_ok (airplanes self) -> dict_ok (airplanes self').
Proof.
  revert self. induction ticks as [|[rt w] rest IH]; intros self;
    cbn [run_ticks].
  - intros H. injection H as <-. tauto.
  - destruct (snd (tick self rt w)) as [s1|e] eqn:Ht; cbn [bind];
      [|discriminate].
    intros H Hok. apply (IH _ H). exact (dict_ok_tick _ _ _ _ Ht Hok).
Qed.

(** Every state a run reaches holds well-formed airplanes. *)
Lemma reachable_dict_ok (s : AirplaneTrackingApp) :
  reachable s -> dict_ok (airplanes s).
Proof.
  intros (w0 & t0 & ticks & s0 & Hstart & Hrun).
  apply (dict_ok_run_ticks _ _ _ Hrun).
  unfold run_start in Hstart.
  destruct (snd (update_airplanes AirplaneTrackingApp_init w0)) as [s1|e] eqn:Hu;
    cbn [bind] in Hstart; [|discriminate].
  injection Hstart as <-. cbn [airplanes].
  apply (dict_ok_update_airplanes _ _ _ Hu).
  split; constructor.
Qed.

Lemma reachable_start (w : world) (t : float) (s : AirplaneTrackingApp) :
  run_start AirplaneTrackingApp_init w t = Ok s -> reachable s.
Proof. intros H. exists w, t, [], s. split; [exact H | reflexivity]. Qed.

Lemma run_ticks_app (l1 l2 : list (float * world)) (s : AirplaneTrackingApp) :
  run_ticks s (l1 ++ l2) = (s' <- run_ticks s l1 ;; run_ticks s' l2).
Proof.
  revert s. induction l1 as [|[rt w] l1 IH]; intros s; cbn [app run_ticks bind];
    [reflexivity|].
  destruct (snd (tick s rt w)) as [s1|e]; cbn [bind]; [apply IH | reflexivity].
Qed.

Lemma reachable_tick (s s' : AirplaneTrackingApp) (rt : float) (w : world) :
  reachable s -> snd (tick s rt w) = Ok s' -> reachable s'.
Proof.
  intros (w0 & t0 & ticks & s0 & Hstart & Hrun) Ht.
  exists w0, t0, (ticks ++ [(rt, w)]), s0. split; [exact Hstart|].
  rewrite run_ticks_app, Hrun. cbn [bind run_ticks]. rewrite Ht. reflexivity.
Qed.

(** X10: In every state a run reaches, no key of [self.airplanes] is
    repeated, each airplane is stored under the key of its own [icao24], and
    looking that key up returns that airplane. *)
Theorem tracked_under_own_identifier (s : AirplaneTrackingApp) :
  reachable s ->
  NoDup (map fst (airplanes s))
  /\ forall k a, In (k, a) (airplanes s) ->
       dict_key (icao24 a) = Ok k /\ dict_get k (airplanes s) = Some a.
Proof.
  intros Hr. destruct (reachable_dict_ok _ Hr) as [Hnd Hall].
  split; [exact Hnd|]. intros k a Hin. rewrite Forall_forall in Hall.
  split; [exact (proj1 (Hall _ Hin)) | exact (dict_get_of_In _ _ _ Hnd Hin)].
Qed.

(** X11: In every state a run reaches, the target of each tracked airplane
    lies inside the Asia region, and its heading, altitude and velocity are
    never [None]. *)
Theorem tracked_targets_in_region (s : AirplaneTrackingApp) (k : key)
    (a : Airplane) :
  reachable s ->
  dict_get k (airplanes s) = Some a ->
  is_in_view (transformer AppView_init) (target_lat a) (target_lon a) = true
  /\ heading a <> PNone /\ altitude a <> PNone /\ velocity a <> PNone.
Proof.
  intros Hr Hget.
  destruct (dict_ok_get _ _ _ (reachable_dict_ok _ Hr) Hget)
    as (_ & _ & _ & _ & _ & Hview & Hh & Ha & Hv & _).
  tauto.
Qed.

(** X12: In every state a run reaches, each tracked airplane has its counter
    between 0 and [INTERPOLATION_STEPS], and a trail of at least one and at
    most 20 points whose newest point is the target. *)
Theorem tracked_trail_ends_at_target (s : AirplaneTrackingApp) (k : key)
    (a : Airplane) :
  reachable s ->
  dict_get k (airplanes s) = Some a ->
  0 <= interp_step a <= INTERPOLATION_STEPS
  /\ (1 <= List.length (trail a) <= 20)%nat
  /\ exists older, trail a = older ++ [target a].
Proof.
  intros Hr Hget.
  destruct (dict_ok_get _ _ _ (reachable_dict_ok _ Hr) Hget)
    as (_ & Hs & _ & Hl & (older & Ht) & _).
  split; [exact Hs|]. split; [|exists older; exact Ht].
  split; [|exact Hl]. rewrite Ht, length_app. cbn. lia.
Qed.

(** X13: In every state a run reaches, the interpolation pass of the loop
    raises nothing and keeps the keys; an iteration whose update interval has
    not elapsed therefore returns, requests nothing, and changes only the
    airplanes, by that pass. *)
Theorem interpolation_pass_never_fails (s : AirplaneTrackingApp)
    (run_time : float) (w : world) :
  reachable s ->
  exists planes,
    interpolate_all (airplanes s) = Ok planes
    /\ map fst planes = map fst (airplanes s)
    /\ ((API_UPDATE_INTERVAL <=? run_time - last_api_update s)%float = false ->
        tick s run_time w
        = (false, Ok (mkApp (api_fetcher s) planes (last_api_update s)))).
Proof.
  intros Hr. destruct (reachable_dict_ok _ Hr) as [_ Hall].
  destruct (dict_ok_interpolate_all _ Hall) as (d' & Hd & Hkeys & _).
  exists d'. split; [exact Hd|]. split; [exact Hkeys|].
  intros Hgate. unfold tick. rewrite Hd, Hgate. reflexivity.
Qed.

(** *** Instances on a run over Tokyo *)

Lemma tracked_under_own_identifier_witness :
  exists s0 s1,
    run_start AirplaneTrackingApp_init
      (mkWorld 1000 (feed_response (PList [tokyo_vector])) 1000) 1000 = Ok s0
    /\ snd (tick s0 1001 (mkWorld 1001 NoResponse 1001)) = Ok s1
    /\ NoDup (map fst (airplanes s1))
    /\ forall k a, In (k, a) (airplanes s1) ->
         dict_key (icao24 a) = Ok k /\ dict_get k (airplanes s1) = Some a.
Proof.
  destruct (run_start _ _ _) as [s0|e] eqn:Hs0;
    [|vm_compute in Hs0; discriminate].
  destruct (snd (tick s0 1001 (mkWorld 1001 NoResponse 1001))) as [s1|e] eqn:Hs1;
    [|vm_compute in Hs0; injection Hs0 as <-; vm_compute in Hs1; discriminate].
  exists s0, s1. split; [reflexivity|]. split; [exact Hs1|].
  apply tracked_under_own_identifier.
  exact (reachable_tick _ _ _ _ (reachable_start _ _ _ Hs0) Hs1).
Defined.

Lemma tracked_targets_in_region_witness :
  exists s0 a,
    run_start AirplaneTrackingApp_init
      (mkWorld 1000 (feed_response (PList [tokyo_vector])) 1000) 1000 = Ok s0
    /\ dict_get (KStr "abc123") (airplanes s0) = Some a
    /\ is_in_view (transformer AppView_init) (target_lat a) (target_lon a)
       = true
    /\ heading a <> PNone /\ altitude a <> PNone /\ velocity a <> PNone.
Proof.
  destruct (run_start _ _ _) as [s0|e] eqn:Hs0;
    [|vm_compute in Hs0; discriminate].
  destruct (dict_get (KStr "abc123") (airplanes s0)) as [a|] eqn:Ha;
    [|vm_compute in Hs0; injection Hs0 as <-; vm_compute in Ha; discriminate].
  exists s0, a. split; [reflexivity|]. split; [exact Ha|].
  exact (tracked_targets_in_region s0 (KStr "abc123") a
           (reachable_start _ _ _ Hs0) Ha).
Defined.

Lemma tracked_trail_ends_at_target_witness :
  exists s0 a,
    run_start AirplaneTrackingApp_init
      (mkWorld 1000 (feed_response (PList [tokyo_vector])) 1000) 1000 = Ok s0
    /\ dict_get (KStr "abc123") (airplanes s0) = Some a
    /\ 0 <= interp_step a <= INTERPOLATION_STEPS
    /\ (1 <= List.length (trail a) <= 20)%nat
    /\ exists older, trail a = older ++ [target a].
Proof.
  destruct (run_start _ _ _) as [s0|e] eqn:Hs0;
    [|vm_compute in Hs0; discriminate].
  destruct (dict_get (KStr "abc123") (airplanes s0)) as [a|] eqn:Ha;
    [|vm_compute in Hs0; injection Hs0 as <-; vm_compute in Ha; discriminate].
  exists s0, a. split; [reflexivity|]. split; [exact Ha|].
  exact (tracked_trail_ends_at_target s0 (KStr "abc123") a
           (reachable_start _ _ _ Hs0) Ha).
Defined.

Lemma interpolation_pass_never_fails_witness :
  exists s0 planes,
    run_start AirplaneTrackingApp_init
      (mkWorld 1000 (feed_response (PList [tokyo_vector])) 1000) 1000 = Ok s0
    /\ interpolate_all (airplanes s0) = Ok planes
    /\ map fst planes = map fst (airplanes s0)
    /\ ((API_UPDATE_INTERVAL <=? 1001 - last_api_update s0)%float = false ->
        tick s0 1001 (mkWorld 1001 NoResponse 1001)
        = (false, Ok (mkApp (api_fetcher s0) planes (last_api_update s0)))).
Proof.
  destruct (run_start _ _ _) as [s0|e] eqn:Hs0;
    [|vm_compute in Hs0; discriminate].
  destruct (interpolation_pass_never_fails s0 1001
              (mkWorld 1001 NoResponse 1001) (reachable_start _ _ _ Hs0))
    as (planes & H1 & H2 & H3).
  exists s0, planes. split; [reflexivity|]. tauto.
Defined.

(** ** Colours *)

Lemma color_of_callsign_valid (cs : string) : valid_rgb (color_of_callsign cs).
Proof.
  unfold valid_rgb, color_of_callsign.
  set (h := sum_ord _).
  pose proof (Z.mod_pos_bound (h * 67) 200 ltac:(lia)).
  pose proof (Z.mod_pos_bound (h * 131) 200 ltac:(lia)).
  pose proof (Z.mod_pos_bound (h * 197) 200 ltac:(lia)).
  lia.
Qed.

(** X14: In every state a run reaches, the colour of each tracked airplane
    is the one [assign_color_by_callsign] derives from its callsign, and its
    three channels lie between 0 and 255. *)
Theorem tracked_color_valid (s : AirplaneTrackingApp) (k : key)
    (a : Airplane) :
  reachable s ->
  dict_get k (airplanes s) = Some a ->
  color a = color_of_callsign (callsign a) /\ valid_rgb (color a).
Proof.
  intros Hr Hget.
  destruct (dict_ok_get _ _ _ (reachable_dict_ok _ Hr) Hget)
    as (_ & _ & _ & _ & _ & _ & _ & _ & _ & Hc).
  split; [exact Hc|]. rewrite Hc. apply color_of_callsign_valid.
Qed.

Lemma tracked_color_valid_witness :
  exists s0 a,
    run_start AirplaneTrackingApp_init
      (mkWorld 1000 (feed_response (PList [tokyo_vector])) 1000) 1000 = Ok s0
    /\ dict_get (KStr "abc123") (airplanes s0) = Some a
    /\ color a = color_of_callsign (callsign a) /\ valid_rgb (color a).
Proof.
  destruct (run_start _ _ _) as [s0|e] eqn:Hs0;
    [|vm_compute in Hs0; discriminate].
  destruct (dict_get (KStr "abc123") (airplanes s0)) as [a|] eqn:Ha;
    [|vm_compute in Hs0; injection Hs0 as <-; vm_compute in Ha; discriminate].
  exists s0, a. split; [reflexivity|]. split; [exact Ha|].
  exact (tracked_color_valid s0 (KStr "abc123") a
           (reachable_start _ _ _ Hs0) Ha).
Defined.

(** ** What a feed update leaves alone *)

Section Kept.

Context {T : Type} (f : Airplane -> T).
Hypothesis f_update_target :
  forall a lat lon h alt v, f (update_target a lat lon h alt v) = f a.

Lemma record_keeps_fixed (d d1 : dict) (cur cur1 : list key) (r : pyval)
    (k : key) (a : Airplane) :
  reconcile_record (d, cur) r = Ok (d1, cur1) ->
  dict_get k d = Some a ->
  exists a1, dict_get k d1 = Some a1 /\ f a1 = f a.
Proof.
  unfold reconcile_record. intros H Hget.
  destruct (parse_airplane_data r) as [data|].
  2:{ injection H as <- <-. eauto. }
  destruct (dict_key (ad_icao24 data)) as [icao|e]; cbn [bind] in H;
    [|discriminate].
  destruct (dict_get icao d) as [a0|] eqn:Hicao.
  - injection H as <- <-.
    destruct (key_eq_dec k icao) as [->|Hne].
    + rewrite dict_get_set_same by congruence.
      eexists. split; [reflexivity|]. rewrite f_update_target. congruence.
    + rewrite dict_get_set_other by exact Hne. eauto.
  - destruct (Airplane_init _ _ _ _ _ _ _) as [a0|e]; cbn [bind] in H;
      [|discriminate].
    injection H as <- <-. rewrite dict_get_app, Hget. eauto.
Qed.

Lemma merge_keeps_fixed (records : list pyval) (d d' : dict)
    (cur cur' : list key) (k : key) (a : Airplane) :
  reconcile_records records (d, cur) = Ok (d', cur') ->
  dict_get k d = Some a ->
  exists a', dict_get k d' = Some a' /\ f a' = f a.
Proof.
  revert d cur a. induction records as [|r rest IH]; intros d cur a H Hget.
  - cbn in H. injection H as <- <-. eauto.
  - cbn [reconcile_records] in H.
    destruct (reconcile_record (d, cur) r) as [[d1 cur1]|e] eqn:Hr;
      cbn [bind] in H; [|discriminate].
    destruct (record_keeps_fixed _ _ _ _ _ _ _ Hr Hget) as (a1 & Ha1 & Hf1).
    destruct (IH _ _ _ H Ha1) as (a' & Ha' & Hf').
    exists a'. split; [exact Ha' | congruence].
Qed.

Lemma update_airplanes_keeps_fixed (self self' : AirplaneTrackingApp)
    (w : world) (k : key) (a a' : Airplane) :
  snd (update_airplanes self w) = Ok self' ->
  dict_get k (airplanes self) = Some a ->
  dict_get k (airplanes self') = Some a' ->
  f a' = f a.
Proof.
  intros Hu Hget Hget'.
  destruct (update_airplanes_reconcile _ _ _ Hu) as [Hrec _].
  destruct (reconcile_get _ _ _ _ _ Hrec) as (records & d1 & _ & Hm & Hk).
  rewrite Hk in Hget'.
  destruct (grace_exceeded _ _ && negb _); [discriminate|].
  destruct (merge_keeps_fixed _ _ _ _ _ _ _ Hm Hget) as (a1 & Ha1 & Hf1).
  congruence.
Qed.

End Kept.

(** X15: A feed update never moves what is displayed: an airplane tracked
    before and after a call of [update_airplanes] keeps its display position,
    its identifier, the callsign it was first seen with, and its colour,
    whatever the snapshot reports. *)
Theorem update_keeps_display_and_identity (self self' : AirplaneTrackingApp)
    (w : world) (k : key) (a a' : Airplane) :
  snd (update_airplanes self w) = Ok self' ->
  dict_get k (airplanes self) = Some a ->
  dict_get k (airplanes self') = Some a' ->
  display a' = display a /\ identity a' = identity a.
Proof.
  intros Hu Hget Hget'.
  split.
  - exact (update_airplanes_keeps_fixed display (fun _ _ _ _ _ _ => eq_refl)
             _ _ _ _ _ _ Hu Hget Hget').
  - exact (update_airplanes_keeps_fixed identity (fun _ _ _ _ _ _ => eq_refl)
             _ _ _ _ _ _ Hu Hget Hget').
Qed.

(** A second sighting of abc123, further east and under another callsign. *)
Lemma update_keeps_display_and_identity_witness :
  exists s0 s1 a a',
    run_start AirplaneTrackingApp_init
      (mkWorld 1000 (feed_response (PList [tokyo_vector])) 1000) 1000 = Ok s0
    /\ snd (update_airplanes s0
              (mkWorld 1010
                 (feed_response
                    (PList [PList [PStr "abc123"; PStr "ANA456"; PStr "Japan";
                                   PInt 1010; PInt 1010; PFloat 140.5;
                                   PFloat 36.25; PFloat 10000; PBool false;
                                   PFloat 250; PFloat 90]]))
                 1010)) = Ok s1
    /\ dict_get (KStr "abc123") (airplanes s0) = Some a
    /\ dict_get (KStr "abc123") (airplanes s1) = Some a'
    /\ target a' = (36.25%float, 140.5%float)
    /\ display a' = display a /\ identity a' = identity a.
Proof.
  destruct (run_start _ _ _) as [s0|e] eqn:Hs0;
    vm_compute in Hs0; [|discriminate].
  injection Hs0 as <-.
  match goal with
  | |- exists s0 s1 a a', Ok ?x = Ok s0 /\ snd (update_airplanes _ ?w) = _ /\ _ =>
      exists x;
      destruct (snd (update_airplanes x w)) as [s1|e] eqn:Hs1;
        [|vm_compute in Hs1; discriminate];
      exists s1;
      destruct (dict_get (KStr "abc123") (airplanes x)) as [a|] eqn:Ha;
        [|vm_compute in Ha; discriminate];
      destruct (dict_get (KStr "abc123") (airplanes s1)) as [a'|] eqn:Ha';
        [|vm_compute in Hs1; injection Hs1 as <-; vm_compute in Ha';
          discriminate];
      exists a, a';
      pose proof (update_keeps_display_and_identity x s1 w (KStr "abc123")
                    a a' Hs1 Ha Ha') as Hkeep
  end.
  split; [reflexivity|]. split; [reflexivity|]. split; [reflexivity|].
  split; [reflexivity|]. split; [|exact Hkeep].
  vm_compute in Hs1. injection Hs1 as <-. vm_compute in Ha'.
  injection Ha' as <-. reflexivity.
Defined.

(** ** What a feed update brings in *)

(** X16: After a call of [update_airplanes] that returns, every airplane of
    the merged snapshot is tracked, and its target is the position of its
    last record in the snapshot. *)
Theorem snapshot_airplanes_tracked (self self' : AirplaneTrackingApp)
    (w : world) (k : key) :
  snd (update_airplanes self w) = Ok self' ->
  In k (fetched_keys self w) ->
  exists records a',
    iterate (fetched self w) = Ok records
    /\ dict_get k (airplanes self') = Some a'
    /\ last_position records k = Some (target a').
Proof.
  intros Hu Hin.
  destruct (update_airplanes_reconcile _ _ _ Hu) as [Hrec _].
  destruct (reconcile_get _ _ _ _ _ Hrec) as (records & d1 & Hit & Hm & Hk).
  assert (Hkeys : fetched_keys self w = snapshot_keys records).
  { unfold fetched_keys. unfold fetched in Hit.
    destruct (fetch_airplanes _ _ _) as [[fetcher raw] requested].
    rewrite Hit. reflexivity. }
  rewrite Hkeys in Hin.
  destruct (merge_effect _ _ _ _ _ Hm) as (_ & _ & Heff).
  destruct (Heff k) as [_ Hlast].
  destruct (last_position records k) as [p|] eqn:Hp.
  - destruct Hlast as (a' & Ha' & Ht).
    exists records, a'. split; [exact Hit|].
    rewrite Hk. apply key_in_spec in Hin. rewrite Hin, andb_false_r.
    split; [exact Ha' | congruence].
  - exfalso. apply (proj1 (last_position_keys records k) Hin). exact Hp.
Qed.

Lemma snapshot_airplanes_tracked_witness :
  exists s0 records a',
    snd (update_airplanes AirplaneTrackingApp_init
           (mkWorld 1000 (feed_response (PList [tokyo_vector])) 1000)) = Ok s0
    /\ iterate (fetched AirplaneTrackingApp_init
                  (mkWorld 1000 (feed_response (PList [tokyo_vector])) 1000))
       = Ok records
    /\ dict_get (KStr "abc123") (airplanes s0) = Some a'
    /\ last_position records (KStr "abc123") = Some (target a').
Proof.
  destruct (snd (update_airplanes AirplaneTrackingApp_init
                   (mkWorld 1000 (feed_response (PList [tokyo_vector])) 1000)))
    as [s0|e] eqn:Hs0; [|vm_compute in Hs0; discriminate].
  destruct (snapshot_airplanes_tracked _ _ _ (KStr "abc123") Hs0)
    as (records & a' & H1 & H2 & H3).
  { vm_compute. left. reflexivity. }
  exists s0, records, a'. tauto.
Defined.

(** ** Feeds the update accepts *)

Lemma reconcile_records_strings (records : list pyval) (st : dict * list key) :
  string_records records ->
  exists st', reconcile_records records st = Ok st'.
Proof.
  revert st. induction records as [|r rest IH]; intros st Hwf;
    cbn [reconcile_records]; [eauto|].
  assert (Hr : exists st1, reconcile_record st r = Ok st1).
  { destruct st as [d cur]. unfold reconcile_record.
    destruct (parse_airplane_data r) as [data|] eqn:Hp; [|eauto].
    destruct (Hwf r data (or_introl eq_refl) Hp) as [Hi Hc].
    destruct (ad_icao24 data) as [| | | |icao| |]; try discriminate.
    destruct (ad_callsign data) as [| | | |cs| |]; try discriminate.
    cbn [dict_key bind].
    destruct (dict_get (KStr icao) d); [eauto|].
    unfold Airplane_init. destruct (truthy (PStr cs)); cbn [bind]; eauto. }
  destruct Hr as [st1 ->]. cbn [bind]. apply IH.
  intros r' data Hin. apply Hwf. now right.
Qed.

(** X17: [update_airplanes] returns whenever the snapshot it merges is a
    list in which every accepted state vector carries a string as identifier
    and as callsign. *)
Theorem update_airplanes_returns_on_string_feed (self : AirplaneTrackingApp)
    (w : world) (records : list pyval) :
  fetched self w = PList records ->
  string_records records ->
  exists self', snd (update_airplanes self w) = Ok self'.
Proof.
  unfold fetched, update_airplanes. intros Hf Hwf.
  destruct (fetch_airplanes _ _ _) as [[fetcher raw] requested]. subst raw.
  cbn [snd]. unfold reconcile. cbn [iterate bind].
  destruct (reconcile_records_strings records (airplanes self, []) Hwf)
    as [[d cur] ->].
  cbn [bind]. eauto.
Qed.

Lemma update_airplanes_returns_on_string_feed_witness :
  exists self',
    snd (update_airplanes AirplaneTrackingApp_init
           (mkWorld 1000 (feed_response (PList [tokyo_vector])) 1000))
    = Ok self'.
Proof.
  apply (update_airplanes_returns_on_string_feed AirplaneTrackingApp_init
           (mkWorld 1000 (feed_response (PList [tokyo_vector])) 1000)
           [tokyo_vector]).
  - vm_compute. reflexivity.
  - intros r data [<-|[]] Hp. vm_compute in Hp. injection Hp as <-.
    split; reflexivity.
Defined.

(** ** Interpolation: the first step and the rest position *)

Lemma interpolate_fixed (a r : Airplane) :
  INTERPOLATION_STEPS <= interp_step a ->
  interpolate a = Ok r -> interpolate r = Ok r.
Proof.
  unfold interpolate. intros Hs.
  destruct (Z.ltb_spec (interp_step a) INTERPOLATION_STEPS) as [Hlt|_]; [lia|].
  intros H. injection H as <-. cbn [interp_step].
  destruct (Z.ltb_spec (interp_step a) INTERPOLATION_STEPS) as [Hlt|_]; [lia|].
  reflexivity.
Qed.

Lemma interpolate_n_fixed (n : nat) (r : Airplane) :
  interpolate r = Ok r -> interpolate_n n r = Ok r.
Proof.
  intros H. induction n as [|n IH]; [reflexivity|].
  cbn [interpolate_n]. rewrite H. exact IH.
Qed.

Lemma interpolate_n_add (n m : nat) (a : Airplane) :
  interpolate_n (n + m) a = (b <- interpolate_n n a ;; interpolate_n m b).
Proof.
  revert a. induction n as [|n IH]; intros a; [reflexivity|].
  cbn [Nat.add interpolate_n].
  destruct (interpolate a) as [a'|e]; cbn [bind]; [apply IH | reflexivity].
Qed.

Lemma rest_after (m : nat) (a : Airplane) :
  0 <= interp_step a ->
  interp_step a + Z.of_nat m = INTERPOLATION_STEPS ->
  exists r,
    interpolate_n (m + 1) a = Ok r
    /\ display r = target a /\ same_course a r /\ interpolate r = Ok r.
Proof.
  revert a. induction m as [|m IH]; intros a H0 Hm.
  - destruct (interpolate_at_bound a) as (r & Hr & _ & Hd & Hc); [lia|].
    exists r. cbn [Nat.add interpolate_n]. rewrite Hr. cbn [bind].
    split; [reflexivity|]. split; [exact Hd|]. split; [exact Hc|].
    apply (interpolate_fixed a); [lia | exact Hr].
  - destruct (interpolate_below a) as (t & a' & _ & Ha' & Hs & _ & Hc); [lia|].
    destruct (IH a') as (r & Hr & Hd & Hc' & Hfix); [lia | lia|].
    exists r. cbn [Nat.add interpolate_n]. rewrite Ha'. cbn [bind].
    split; [exact Hr|]. split.
    + rewrite Hd. unfold target. exact (proj1 Hc).
    + split; [exact (same_course_trans _ _ _ Hc Hc') | exact Hfix].
Qed.

(** X18: An airplane that receives no further update comes to rest on its
    target: with its counter at [k], after [INTERPOLATION_STEPS - k + 1] calls
    of [interpolate] the display is the target, and any number of further
    calls returns the same airplane. *)
Theorem interpolation_comes_to_rest (a : Airplane) (n : nat) :
  0 <= interp_step a <= INTERPOLATION_STEPS ->
  let m := Z.to_nat (INTERPOLATION_STEPS - interp_step a) in
  exists r,
    interpolate_n (m + 1) a = Ok r
    /\ interpolate_n (m + 1 + n) a = Ok r
    /\ display r = target a
    /\ target r = target a.
Proof.
  intros Hs m.
  destruct (rest_after m a) as (r & Hr & Hd & Hc & Hfix); [lia | lia|].
  exists r. split; [exact Hr|]. split.
  - rewrite interpolate_n_add, Hr. cbn [bind].
    exact (interpolate_n_fixed n r Hfix).
  - split; [exact Hd | exact (proj1 Hc)].
Qed.

Lemma interpolation_comes_to_rest_witness :
  exists r,
    interpolate_n 31 tokyo_airplane = Ok r
    /\ interpolate_n (31 + 100) tokyo_airplane = Ok r
    /\ display r = target tokyo_airplane
    /\ target r = target tokyo_airplane.
Proof.
  apply (interpolation_comes_to_rest tokyo_airplane 100).
  unfold INTERPOLATION_STEPS. cbn. lia.
Defined.

Lemma finite_cases (x : float) :
  is_finite x = true ->
  (exists s, Prim2SF x = S754_zero s)
  \/ (exists s m e, Prim2SF x = S754_finite s m e).
Proof.
  intros H. destruct (Prim2SF x) as [s|s| |s m e] eqn:Hx.
  - left. eauto.
  - unfold is_finite in H. rewrite (is_infinity_spec x s Hx), orb_true_r in H.
    discriminate.
  - rewrite (Prim2SF_nan_inv x Hx) in H. discriminate.
  - right. eauto.
Qed.

Lemma SFcompare_finite_refl (s : bool) (m : positive) (e : Z) :
  SFcompare (S754_finite s m e) (S754_finite s m e) = Some Eq.
Proof.
  cbn. destruct s; rewrite Z.compare_refl, Pos.compare_cont_refl; reflexivity.
Qed.

(** Adding a finite number times zero leaves a finite number where it is. *)
Lemma add_mul_zero (x d : float) :
  is_finite x = true -> is_finite d = true ->
  (x + d * 0 =? x)%float = true.
Proof.
  intros Hx Hd.
  rewrite FloatAxioms.eqb_spec, add_spec, mul_spec.
  change (Prim2SF 0) with (S754_zero false).
  destruct (finite_cases d Hd) as [(sd & ->) | (sd & md & ed & ->)];
    destruct (finite_cases x Hx) as [(sx & ->) | (sx & mx & ex & ->)];
    cbn [SF64mul SFmul SF64add SFadd]; unfold SFeqb.
  - destruct sx, sd; reflexivity.
  - rewrite SFcompare_finite_refl. reflexivity.
  - destruct sx, sd; reflexivity.
  - rewrite SFcompare_finite_refl. reflexivity.
Qed.

(** X19: The first call of [interpolate] after [update_target] leaves the
    display position where it was: the first interpolated point has factor
    0 / [INTERPOLATION_STEPS], so the move starts from the old display
    position and not from the old target. *)
Theorem first_step_keeps_display (self : Airplane) (lat lon : float)
    (h alt v : pyval) :
  is_finite (display_lat self) = true ->
  is_finite (display_lon self) = true ->
  is_finite (lat - display_lat self) = true ->
  is_finite (lon - display_lon self) = true ->
  exists a1,
    interpolate (update_target self lat lon h alt v) = Ok a1
    /\ interp_step a1 = 1
    /\ (display_lat a1 =? display_lat self)%float = true
    /\ (display_lon a1 =? display_lon self)%float = true.
Proof.
  intros H1 H2 H3 H4. eexists. split; [reflexivity|].
  cbn [interp_step display_lat display_lon update_target prev_lat prev_lon
       target_lat target_lon].
  split; [reflexivity|]. unfold linear_interpolation.
  split; apply add_mul_zero; assumption.
Qed.

Lemma first_step_keeps_display_witness :
  exists a1,
    interpolate (update_target tokyo_airplane 36.25 140.5 PNone PNone PNone)
    = Ok a1
    /\ interp_step a1 = 1
    /\ (display_lat a1 =? display_lat tokyo_airplane)%float = true
    /\ (display_lon a1 =? display_lon tokyo_airplane)%float = true.
Proof.
  exact (first_step_keeps_display tokyo_airplane 36.25 140.5 PNone PNone PNone
           eq_refl eq_refl eq_refl eq_refl).
Defined.

(** ** The coordinate transformer on NaN *)

Lemma is_nan_inv (x : float) : is_nan x = true -> x = nan.
Proof.
  unfold is_nan. rewrite FloatAxioms.eqb_spec. intros H.
  apply Prim2SF_nan_inv.
  destruct (Prim2SF x) as [s|s| |s m e]; [| |reflexivity|]; exfalso.
  - destruct s; discriminate.
  - destruct s; discriminate.
  - unfold SFeqb in H. rewrite SFcompare_finite_refl in H. discriminate.
Qed.

Lemma div_nan_l (y : float) : (nan / y)%float = nan.
Proof.
  apply Prim2SF_nan_inv. rewrite div_spec, Prim2SF_nan. reflexivity.
Qed.

Lemma sub_nan_r (x : float) : (x - nan)%float = nan.
Proof.
  apply Prim2SF_nan_inv. rewrite sub_spec, Prim2SF_nan.
  destruct (Prim2SF x) as [[|]|[|]| |]; reflexivity.
Qed.

Lemma is_in_view_nan (t : CoordinateTransformer) (lat lon : float) :
  is_nan lat = true \/ is_nan lon = true -> is_in_view t lat lon = false.
Proof.
  assert (Hle : forall a, (a <=? nan)%float = false).
  { intros a. rewrite leb_spec, Prim2SF_nan.
    destruct (Prim2SF a) as [[|]|[|]| |[|] ? ?]; reflexivity. }
  unfold is_in_view. intros [H|H]; rewrite (is_nan_inv _ H), Hle.
  - reflexivity.
  - rewrite andb_false_r. reflexivity.
Qed.

(** X20: [geo_to_screen] never returns a pixel for a NaN coordinate: the
    call raises, on every transformer; and [is_in_view] rejects the
    coordinate. *)
Theorem geo_to_screen_rejects_nan (t : CoordinateTransformer)
    (lat lon : float) :
  is_nan lat = true \/ is_nan lon = true ->
  (exists e, geo_to_screen t lat lon = Raise e)
  /\ is_in_view t lat lon = false.
Proof.
  intros H. split; [|exact (is_in_view_nan t lat lon H)].
  unfold geo_to_screen, Py.div.
  destruct (is_zero (max_lon t - min_lon t)); cbn [bind]; [eauto|].
  destruct (is_zero (max_lat t - min_lat t)); cbn [bind]; [eauto|].
  destruct (Py.truediv_int (screen_width t) 2) as [cx|e]; cbn [bind]; [|eauto].
  destruct (Py.truediv_int (screen_height t) 2) as [cy|e]; cbn [bind]; [|eauto].
  destruct (Py.float_of_int (screen_width t)) as [w|e]; cbn [bind]; [|eauto].
  destruct (Py.float_of_int (screen_height t)) as [h|e]; cbn [bind]; [|eauto].
  destruct H as [H|H]; rewrite (is_nan_inv _ H).
  - destruct (Py.int _) as [ix|e]; cbn [bind]; [|eauto].
    rewrite sub_nan_r, div_nan_l, pixel_of_nan. cbn [bind]. eauto.
  - rewrite sub_nan_l, div_nan_l, pixel_of_nan. cbn [bind]. eauto.
Qed.

Lemma geo_to_screen_rejects_nan_witness :
  (exists e, geo_to_screen (transformer AppView_init) nan 100 = Raise e)
  /\ is_in_view (transformer AppView_init) nan 100 = false.
Proof.
  exact (geo_to_screen_rejects_nan (transformer AppView_init) nan 100
           (or_introl eq_refl)).
Defined.

(** ** A run over a feed of string-identified vectors *)

Lemma fetch_string_feed (self : AviationAPIFetcher) (t : float)
    (o : http_outcome) :
  string_feed (cache_data self) -> good_outcome o ->
  string_feed (cache_data (fst (fst (fetch_airplanes self t o))))
  /\ snd (fst (fetch_airplanes self t o))
     = cache_data (fst (fst (fetch_airplanes self t o))).
Proof.
  intros Hc Ho. unfold fetch_airplanes, fetch_try.
  destruct (t - last_fetch_time self <? API_UPDATE_INTERVAL)%float;
    [split; [exact Hc | reflexivity]|].
  destruct o as [|code body]; [split; [exact Hc | reflexivity]|].
  destruct (Z.eqb_spec code 200) as [->|Hne];
    [|split; [exact Hc | reflexivity]].
  destruct body as [[| | | | | |data]|];
    try (split; [exact Hc | reflexivity]).
  cbn [cache_data].
  destruct (py_len (dict_get_str data "states" (PList []))); cbn [bind fst snd];
    (split; [exact (Ho data eq_refl) | reflexivity]).
Qed.

(** The invariant of such a run: well-formed airplanes, and a cache holding a
    list of string-identified vectors. *)
Lemma update_airplanes_string_feed (s : AirplaneTrackingApp) (w : world) :
  dict_ok (airplanes s) ->
  string_feed (cache_data (api_fetcher s)) ->
  good_outcome (net w) ->
  exists s',
    snd (update_airplanes s w) = Ok s'
    /\ dict_ok (airplanes s')
    /\ string_feed (cache_data (api_fetcher s'))
    /\ last_api_update s' = last_api_update s.
Proof.
  intros Hok Hc Ho.
  destruct (fetch_string_feed (api_fetcher s) (fetch_time w) (net w) Hc Ho)
    as [Hc' Hsnap].
  assert (Hex : exists s', snd (update_airplanes s w) = Ok s'
                           /\ api_fetcher s'
                              = fst (fst (fetch_airplanes (api_fetcher s)
                                            (fetch_time w) (net w)))
                           /\ last_api_update s' = last_api_update s).
  { unfold update_airplanes.
    destruct (fetch_airplanes _ _ _) as [[fetcher raw] requested].
    cbn [fst snd] in *. subst raw.
    destruct Hc' as (records & -> & Hwf).
    unfold reconcile. cbn [iterate bind].
    destruct (reconcile_records_strings records (airplanes s, []) Hwf)
      as [[d cur] ->].
    cbn [bind]. eexists. split; [reflexivity|]. split; reflexivity. }
  destruct Hex as (s' & Hs' & Hf & Hl). exists s'.
  split; [exact Hs'|]. split; [exact (dict_ok_update_airplanes _ _ _ Hs' Hok)|].
  split; [rewrite Hf; exact Hc' | exact Hl].
Qed.

Lemma tick_string_feed (s : AirplaneTrackingApp) (rt : float) (w : world) :
  dict_ok (airplanes s) ->
  string_feed (cache_data (api_fetcher s)) ->
  good_outcome (net w) ->
  exists s',
    snd (tick s rt w) = Ok s'
    /\ dict_ok (airplanes s')
    /\ string_feed (cache_data (api_fetcher s')).
Proof.
  intros Hok Hc Ho.
  destruct (dict_ok_interpolate_all _ (proj2 Hok)) as (d' & Hd & Hkeys & Hall').
  assert (Hok1 : dict_ok d')
    by (split; [rewrite Hkeys; exact (proj1 Hok) | exact Hall']).
  unfold tick. rewrite Hd.
  destruct (API_UPDATE_INTERVAL <=? rt - last_api_update s)%float.
  - destruct (update_airplanes_string_feed
                (mkApp (api_fetcher s) d' (last_api_update s)) w Hok1 Hc Ho)
      as (s2 & Hs2 & Hok2 & Hc2 & _).
    destruct (update_airplanes _ w) as [requested r]. cbn [snd] in *.
    rewrite Hs2. cbn [bind]. eexists. split; [reflexivity|].
    split; [exact Hok2 | exact Hc2].
  - cbn [snd]. eexists. split; [reflexivity|]. split; [exact Hok1 | exact Hc].
Qed.

Lemma run_ticks_string_feed (ticks : list (float * world))
    (s : AirplaneTrackingApp) :
  dict_ok (airplanes s) ->
  string_feed (cache_data (api_fetcher s)) ->
  Forall (fun tw => good_outcome (net (snd tw))) ticks ->
  exists s', run_ticks s ticks = Ok s'.
Proof.
  revert s. induction ticks as [|[rt w] rest IH]; intros s Hok Hc Hall;
    cbn [run_ticks]; [eauto|].
  inversion Hall as [|? ? Hw Hrest]; subst. cbn [snd] in Hw.
  destruct (tick_string_feed s rt w Hok Hc Hw) as (s1 & -> & Hok1 & Hc1).
  cbn [bind]. exact (IH s1 Hok1 Hc1 Hrest).
Qed.

(** X21: A run never stops on an exception of the update part as long as
    every 200 answer of the feed that holds a JSON object carries, under
    "states", a list whose accepted vectors have a string as identifier and
    as callsign: the initial fetch and every iteration of the loop return,
    whatever the clock readings and however the other requests fail. *)
Theorem run_returns_on_string_feeds (w0 : world) (t0 : float)
    (ticks : list (float * world)) :
  good_outcome (net w0) ->
  Forall (fun tw => good_outcome (net (snd tw))) ticks ->
  exists s0 s,
    run_start AirplaneTrackingApp_init w0 t0 = Ok s0
    /\ run_ticks s0 ticks = Ok s.
Proof.
  intros H0 Hall.
  destruct (update_airplanes_string_feed AirplaneTrackingApp_init w0)
    as (s1 & Hs1 & Hok1 & Hc1 & _);
    [split; constructor
    | exists []; split; [reflexivity | intros r data []]
    | exact H0 |].
  unfold run_start. rewrite Hs1. cbn [bind].
  destruct (run_ticks_string_feed ticks
              (mkApp (api_fetcher s1) (airplanes s1) t0) Hok1 Hc1 Hall)
    as [s Hs].
  eauto.
Qed.

Lemma run_returns_on_string_feeds_witness :
  exists s0 s,
    run_start AirplaneTrackingApp_init
      (mkWorld 1000 (feed_response (PList [tokyo_vector])) 1000) 1000 = Ok s0
    /\ run_ticks s0
         [(1001%float, mkWorld 1001 NoResponse 1001);
          (1011%float, mkWorld 1011 (Response 500 None) 1011);
          (1021%float,
           mkWorld 1021 (feed_response (PList [tokyo_vector])) 1021)]
       = Ok s.
Proof.
  assert (Htokyo : good_outcome (feed_response (PList [tokyo_vector]))).
  { intros data H. injection H as <-. exists [tokyo_vector].
    split; [reflexivity|]. intros r d [<-|[]] Hp.
    vm_compute in Hp. injection Hp as <-. split; reflexivity. }
  apply run_returns_on_string_feeds; [exact Htokyo|].
  repeat constructor; cbn [snd net]; try exact Htokyo;
    intros data H; discriminate.
Defined.
